(** * UniformGridRandomFieldGenerator: grid geometry, cache key and cache codec

    A shallow embedding of [src/UniformGridRandomFieldGenerator.cpp].

    Data follows the C++ object model of an LP64 little-endian host:
    - a stored [double] is its 64-bit IEEE 754 pattern (a [Z] below [2^64]);
      arithmetic is done on the value it denotes, a [spec_float] of the
      binary64 format, with the operations of the standard library's
      [SpecFloat] (round to nearest, ties to even), each operation rounding
      on its own;
    - an [unsigned] is a [Z] below [2^32], its products wrap;
    - a [std::array<T, SPACE_DIM>] and a [c_vector<double, SPACE_DIM>] are
      lists, read with a total lookup;
    - a struct is the list of its bytes, members at their offsets;
    - files are byte lists held in a finite map from absolute paths, and a
      call runs in a small state-and-exception monad over the outside world,
      which also records the stream operations made. Storage is assumed
      never to run out. *)

From Stdlib Require Import ZArith Lia List String Ascii Bool.
From Stdlib Require Import Floats.SpecFloat.
From Stdlib Require Import Numbers.DecimalString.
From Stdlib Require DecimalPos DecimalN.
From coqutil Require Import Word.LittleEndianList Byte.
From stdpp Require Import base gmap list strings.

Local Open Scope Z_scope.

(** ** Machine numbers *)

(** Bit pattern of a stored [double]. *)
Definition double := Z.
(** Value of an [unsigned]. *)
Definition unsigned := Z.

Definition prec : Z := 53.
Definition emax : Z := 1024.

Definition fsub := SFsub prec emax.
Definition fadd := SFadd prec emax.
Definition fmul := SFmul prec emax.
(** [std::fabs] *)
Definition fabs := SFabs.
(** [operator<] on doubles: false as soon as one side is a NaN. *)
Definition flt := SFltb.

(** [std::min(a, b)] is [(b < a) ? b : a]. *)
Definition std_min (a b : spec_float) : spec_float :=
  if flt b a then b else a.

Definition double_sign (b : double) : bool := Z.testbit b 63.
Definition double_expt (b : double) : Z := Z.land (Z.shiftr b 52) 2047.
Definition double_frac (b : double) : Z := Z.land b (Z.ones 52).

(** The binary64 value denoted by a bit pattern. *)
Definition dval (b : double) : spec_float :=
  let s := double_sign b in
  let e := double_expt b in
  let m := double_frac b in
  if e =? 0 then
    match m with
    | Zpos p => S754_finite s p (-1074)
    | _ => S754_zero s
    end
  else if e =? 2047 then
    if m =? 0 then S754_infinity s else S754_nan
  else S754_finite s (Z.to_pos (m + 2 ^ 52)) (e - 1075).

(** [unsigned] multiplication. *)
Definition umul (a b : unsigned) : unsigned := (a * b) mod 2 ^ 32.

(** ** The generator object *)

(** Modelled from the spec: the members [mEigenvals] and [mEigenvecs] are
    declared in the header, which is not part of the sources; the code uses
    them through [resize], [data] and [size], and the spec describes a
    sequence of doubles and a dense matrix stored column by column
    (Eigen's [VectorXd] and [MatrixXd]). *)
Record MatrixXd := {
  m_rows : Z;
  m_cols : Z;
  m_data : list double
}.

Definition VectorXd := list double.

Record UniformGridRandomFieldGenerator := {
  mLowerCorner : list double;
  mUpperCorner : list double;
  mNumGridPts : list unsigned;
  mPeriodicity : list bool;
  mNumEigenvals : unsigned;
  mLengthScale : double;
  mEigenvals : VectorXd;
  mEigenvecs : MatrixXd
}.

Definition empty_matrix : MatrixXd :=
  {| m_rows := 0; m_cols := 0; m_data := [] |}.

(** ** Grid geometry *)

Section Geometry.
Variable SPACE_DIM : nat.
Variable this : UniformGridRandomFieldGenerator.

(** Body of the loop over dimensions in [GetSquaredDistAtoB]. *)
Definition dist_step (rLocation1 rLocation2 : list double)
    (dist_squared : spec_float) (dim : nat) : spec_float :=
  let delta_this_dim :=
    fabs (fsub (dval (rLocation2 !!! dim)) (dval (rLocation1 !!! dim))) in
  let delta_this_dim :=
    if (mPeriodicity this !!! dim : bool) then
      let domain_width_this_dim :=
        fsub (dval (mUpperCorner this !!! dim)) (dval (mLowerCorner this !!! dim)) in
      std_min delta_this_dim (fsub domain_width_this_dim delta_this_dim)
    else delta_this_dim in
  fadd dist_squared (fmul delta_this_dim delta_this_dim).

(** [for (unsigned dim = from; dim < from + n; ++dim)] *)
Fixpoint dist_loop (rLocation1 rLocation2 : list double)
    (n from : nat) (dist_squared : spec_float) : spec_float :=
  match n with
  | O => dist_squared
  | S n' =>
      dist_loop rLocation1 rLocation2 n' (S from)
        (dist_step rLocation1 rLocation2 dist_squared from)
  end.

Definition GetSquaredDistAtoB (rLocation1 rLocation2 : list double) : spec_float :=
  dist_loop rLocation1 rLocation2 SPACE_DIM 0%nat (S754_zero false).

(** The distance as the specification words it: a per-axis [delta],
    wrapped on periodic axes, whose squares are accumulated. *)
Definition spec_width (d : nat) : spec_float :=
  fsub (dval (mUpperCorner this !!! d)) (dval (mLowerCorner this !!! d)).

Definition spec_delta (p1 p2 : list double) (d : nat) : spec_float :=
  let delta := fabs (fsub (dval (p2 !!! d)) (dval (p1 !!! d))) in
  if (mPeriodicity this !!! d : bool)
  then std_min delta (fsub (spec_width d) delta)
  else delta.

Definition spec_SquaredDistance (p1 p2 : list double) : spec_float :=
  fold_left fadd
    (map (fun d => fmul (spec_delta p1 p2 d) (spec_delta p1 p2 d)) (seq 0 SPACE_DIM))
    (S754_zero false).
End Geometry.

(** ** Bytes and object representations *)

(** [n] consecutive objects of [sz] bytes each, little-endian. *)
Definition encode_array (sz : nat) (l : list Z) : list byte :=
  flat_map (le_split sz) l.

Fixpoint decode_array (sz n : nat) (mem : list byte) : list Z :=
  match n with
  | O => []
  | S n' => le_combine (take sz mem) :: decode_array sz n' (drop sz mem)
  end.

(** [z] is the value of an object of [sz] bytes. *)
Definition in_range (sz : nat) (z : Z) : Prop := 0 <= z < 2 ^ (Z.of_nat sz * 8).

Definition Z_of_bool (b : bool) : Z := if b then 1 else 0.
(** A [bool] object is read back as [true] when its byte is not zero. *)
Definition bool_of_Z (z : Z) : bool := negb (z =? 0).

(** Bytes [off .. off + len) of an object. *)
Definition load (off len : nat) (mem : list byte) : list byte :=
  take len (drop off mem).

(** The object with [bs] copied over its bytes from [off] on. *)
Definition store (off : nat) (bs mem : list byte) : list byte :=
  take off mem ++ bs ++ drop (off + length bs) mem.

(** ** The cache header *)

(** Modelled from the spec: [RandomFieldCacheHeader<SPACE_DIM>] is declared in
    the header file, which is not part of the sources. The spec gives its
    members in order, [{lowerCorner[N] doubles, upperCorner[N] doubles,
    numGridPts[N] unsigned, periodicity[N] booleans, numEigenvals unsigned,
    lengthScale double}], laid out with native struct padding: each member at
    the next offset that is a multiple of its alignment (8 for [double], 4
    for [unsigned], 1 for [bool]). *)
Section HeaderLayout.
Variable SPACE_DIM : nat.

Definition align_up (a off : nat) : nat := ((off + a - 1) / a * a)%nat.

Definition off_mLowerCorner : nat := 0.
Definition off_mUpperCorner : nat := (8 * SPACE_DIM)%nat.
Definition off_mNumGridPts : nat := (16 * SPACE_DIM)%nat.
Definition off_mPeriodicity : nat := (20 * SPACE_DIM)%nat.
Definition off_mNumEigenvals : nat := align_up 4 (21 * SPACE_DIM).
Definition off_mLengthScale : nat := align_up 8 (off_mNumEigenvals + 4).
Definition sizeof_header : nat := (off_mLengthScale + 8)%nat.

Definition header_mLowerCorner (header : list byte) : list double :=
  decode_array 8 SPACE_DIM (load off_mLowerCorner (8 * SPACE_DIM) header).
Definition header_mUpperCorner (header : list byte) : list double :=
  decode_array 8 SPACE_DIM (load off_mUpperCorner (8 * SPACE_DIM) header).
Definition header_mNumGridPts (header : list byte) : list unsigned :=
  decode_array 4 SPACE_DIM (load off_mNumGridPts (4 * SPACE_DIM) header).
Definition header_mPeriodicity (header : list byte) : list bool :=
  map bool_of_Z (decode_array 1 SPACE_DIM (load off_mPeriodicity SPACE_DIM header)).
Definition header_mNumEigenvals (header : list byte) : unsigned :=
  le_combine (load off_mNumEigenvals 4 header).
Definition header_mLengthScale (header : list byte) : double :=
  le_combine (load off_mLengthScale 8 header).
End HeaderLayout.

(** ** The outside world: files, streams, exceptions *)

Inductive event :=
| EvOpenIn (path : string) (opened : bool)
| EvRead (count : Z)
| EvCloseIn
| EvOpenOut (path : string) (opened : bool)
| EvWrite (bs : list byte)
| EvCloseOut.

(** [files]: the regular files by absolute path. [readable], [writable]:
    whether the process may open a path for reading, for writing.
    [heap], [brk]: what storage holds before it is initialised; storage is
    handed out from [brk] on and is assumed never to run out.
    [test_output]: the directory [RelativeTo::ChasteTestOutput] resolves to.
    [trace]: the stream operations the program has made, oldest first. *)
Record World := {
  files : gmap string (list byte);
  readable : string -> bool;
  writable : string -> bool;
  heap : nat -> byte;
  brk : nat;
  test_output : string;
  trace : list event
}.

(** How a call ends: it returns, it throws a Chaste [Exception], or the
    process is terminated ([NEVER_REACHED], an exception leaving a
    [noexcept] function). *)
Inductive outcome (A : Type) :=
| Ok (a : A)
| Throw (message : string)
| Terminate.
Arguments Ok {A} a.
Arguments Throw {A} message.
Arguments Terminate {A}.

Definition IO (A : Type) : Type := World -> outcome A * World.

#[global] Instance IO_ret : MRet IO := fun A a w => (Ok a, w).
#[global] Instance IO_bind : MBind IO := fun A B f m w =>
  match m w with
  | (Ok a, w') => f a w'
  | (Throw msg, w') => (Throw msg, w')
  | (Terminate, w') => (Terminate, w')
  end.

Definition throw {A} (message : string) : IO A := fun w => (Throw message, w).
Definition terminate {A} : IO A := fun w => (Terminate, w).

(** Modelled from the spec: the macro [EXCEPT_IF_NOT] comes from
    [Exception.hpp], not part of the sources; it throws when the test is
    false (the spec's [IOError] at the two places it is used). *)
Definition EXCEPT_IF_NOT (test : bool) (text : string) : IO unit :=
  if test then mret tt else throw ("Assertion tripped: " +:+ text).

Definition add_event (e : event) (w : World) : World :=
  {| files := files w; readable := readable w; writable := writable w;
     heap := heap w; brk := brk w; test_output := test_output w;
     trace := trace w ++ [e] |}.

Definition bump (n : nat) (w : World) : World :=
  {| files := files w; readable := readable w; writable := writable w;
     heap := heap w; brk := (brk w + n)%nat; test_output := test_output w;
     trace := trace w |}.

Definition put_file (path : string) (content : list byte) (w : World) : World :=
  {| files := <[path := content]> (files w); readable := readable w;
     writable := writable w; heap := heap w; brk := brk w;
     test_output := test_output w; trace := trace w |}.

(** The next [n] bytes of storage as they are found. *)
Definition junk (w : World) (n : nat) : list byte :=
  map (heap w) (seq (brk w) n).

Definition log (e : event) : IO unit := fun w => (Ok tt, add_event e w).

(** An object of [n] bytes that is not initialised. *)
Definition uninitialised (n : nat) : IO (list byte) := fun w =>
  (Ok (junk w n), bump n w).

Definition set_file (path : string) (content : list byte) : IO unit := fun w =>
  (Ok tt, put_file path content w).

(** *** [std::ifstream] *)

Record ifstream := {
  in_open : bool;
  in_rest : list byte;
  in_good : bool
}.

Definition can_open_in (w : World) (path : string) : option (list byte) :=
  if readable w path then files w !! path else None.

Definition ifstream_open (path : string) : IO ifstream := fun w =>
  match can_open_in w path with
  | Some content =>
      (_ ← log (EvOpenIn path true);
       mret {| in_open := true; in_rest := content; in_good := true |}) w
  | None =>
      (_ ← log (EvOpenIn path false);
       mret {| in_open := false; in_rest := []; in_good := false |}) w
  end.

(** [read(dst, count)]: copies [count] bytes over the start of [dst]. When
    fewer are left it copies those, leaves the rest of [dst] as it was and
    puts the stream in a failed state, in which later reads copy nothing. *)
Definition read_over (dst : list byte) (count : nat) (src : list byte) : list byte :=
  let got := take count src in
  got ++ drop (length got) dst.

Definition ifstream_read (s : ifstream) (dst : list byte) (count : Z)
    : IO (list byte * ifstream) :=
  _ ← log (EvRead count);
  if in_good s then
    mret (read_over dst (Z.to_nat count) (in_rest s),
          {| in_open := in_open s;
             in_rest := drop (Z.to_nat count) (in_rest s);
             in_good := (Z.to_nat count <=? length (in_rest s))%nat |})
  else mret (dst, s).

Definition ifstream_close (s : ifstream) : IO unit := log EvCloseIn.

(** *** [std::ofstream] *)

Record ofstream := {
  out_open : bool;
  out_path : string
}.

(** Opening for output creates the file or empties it. *)
Definition ofstream_open (path : string) : IO ofstream := fun w =>
  if writable w path then
    (_ ← log (EvOpenOut path true);
     _ ← set_file path [];
     mret {| out_open := true; out_path := path |}) w
  else
    (_ ← log (EvOpenOut path false);
     mret {| out_open := false; out_path := path |}) w.

Definition ofstream_write (s : ofstream) (bs : list byte) : IO unit := fun w =>
  (_ ← log (EvWrite bs);
   if out_open s
   then set_file (out_path s) (default [] (files w !! out_path s) ++ bs)
   else mret tt) w.

Definition ofstream_close (s : ofstream) : IO unit := log EvCloseOut.

(** *** [FileFinder] *)

(** Modelled from the spec: [FileFinder] belongs to the path-resolution
    collaborator, [Exists(relpath) -> bool] and
    [Resolve(relpath) -> absolute path]. *)
Record FileFinder := { relative_path : string }.

Definition GetAbsolutePath (f : FileFinder) : IO string := fun w =>
  (Ok (test_output w +:+ relative_path f), w).

Definition Exists (f : FileFinder) : IO bool := fun w =>
  (Ok (bool_decide (is_Some (files w !! (test_output w +:+ relative_path f)))), w).

(** ** Cache key encoder *)

(** [operator<<] on a stream set to [std::fixed] and [std::setprecision(3)].
    An [unsigned] is written in decimal, a [bool] as [0] or [1] (no
    [boolalpha]), a [double] as by [printf("%.3f")]: its exact value rounded
    to a whole number of thousandths, ties to even. *)

Definition show_unsigned (u : unsigned) : string :=
  NilZero.string_of_uint (N.to_uint (Z.to_N u)).

Definition show_bool (b : bool) : string := if b then "1" else "0".

Definition round_half_even (num den : Z) : Z :=
  let q := num / den in
  match 2 * (num mod den) ?= den with
  | Lt => q
  | Eq => if Z.even q then q else q + 1
  | Gt => q + 1
  end.

(** [|x| * 1000] rounded, for [|x| = m * 2^e]. *)
Definition thousandths (m : positive) (e : Z) : Z :=
  if 0 <=? e then Zpos m * 2 ^ e * 1000
  else round_half_even (Zpos m * 1000) (2 ^ (- e)).

(** What is left of the magnitude of a double at three decimals. *)
Inductive fixed3 :=
| F3_thousandths (q : Z)
| F3_inf
| F3_nan.

Definition round3 (x : spec_float) : fixed3 :=
  match x with
  | S754_zero _ => F3_thousandths 0
  | S754_infinity _ => F3_inf
  | S754_nan => F3_nan
  | S754_finite _ m e => F3_thousandths (thousandths m e)
  end.

Definition digit (d : Z) : ascii := ascii_of_nat (48 + Z.to_nat d).

Definition show_fixed3 (negative : bool) (r : fixed3) : string :=
  (if negative then "-" else "") +:+
  match r with
  | F3_thousandths q =>
      show_unsigned (q / 1000) +:+ "." +:+
      String (digit (q / 100 mod 10))
        (String (digit (q / 10 mod 10)) (String (digit (q mod 10)) ""))
  | F3_inf => "inf"
  | F3_nan => "nan"
  end.

Definition show_double (b : double) : string :=
  show_fixed3 (double_sign b) (round3 (dval b)).

Section Generator.
Variable SPACE_DIM : nat.

Section CacheKey.
Variable this : UniformGridRandomFieldGenerator.

Definition GetFilenameFromParams : option string :=
  let name := "CachedRandomFields/" in
  match SPACE_DIM with
  | 1%nat =>
      Some (name +:+ "x_"
        +:+ show_double (mLowerCorner this !!! 0%nat) +:+ "_"
        +:+ show_double (mUpperCorner this !!! 0%nat) +:+ "_"
        +:+ show_unsigned (mNumGridPts this !!! 0%nat) +:+ "_"
        +:+ show_bool (mPeriodicity this !!! 0%nat) +:+ "_"
        +:+ show_unsigned (mNumEigenvals this) +:+ "_"
        +:+ show_double (mLengthScale this)
        +:+ ".rfg")
  | 2%nat =>
      Some (name +:+ "xy_"
        +:+ show_double (mLowerCorner this !!! 0%nat) +:+ "_"
        +:+ show_double (mLowerCorner this !!! 1%nat) +:+ "_"
        +:+ show_double (mUpperCorner this !!! 0%nat) +:+ "_"
        +:+ show_double (mUpperCorner this !!! 1%nat) +:+ "_"
        +:+ show_unsigned (mNumGridPts this !!! 0%nat) +:+ "_"
        +:+ show_unsigned (mNumGridPts this !!! 1%nat) +:+ "_"
        +:+ show_bool (mPeriodicity this !!! 0%nat) +:+ "_"
        +:+ show_bool (mPeriodicity this !!! 1%nat) +:+ "_"
        +:+ show_unsigned (mNumEigenvals this) +:+ "_"
        +:+ show_double (mLengthScale this)
        +:+ ".rfg")
  | 3%nat =>
      Some (name +:+ "xyz_"
        +:+ show_double (mLowerCorner this !!! 0%nat) +:+ "_"
        +:+ show_double (mLowerCorner this !!! 1%nat) +:+ "_"
        +:+ show_double (mLowerCorner this !!! 2%nat) +:+ "_"
        +:+ show_double (mUpperCorner this !!! 0%nat) +:+ "_"
        +:+ show_double (mUpperCorner this !!! 1%nat) +:+ "_"
        +:+ show_double (mUpperCorner this !!! 2%nat) +:+ "_"
        +:+ show_unsigned (mNumGridPts this !!! 0%nat) +:+ "_"
        +:+ show_unsigned (mNumGridPts this !!! 1%nat) +:+ "_"
        +:+ show_unsigned (mNumGridPts this !!! 2%nat) +:+ "_"
        +:+ show_bool (mPeriodicity this !!! 0%nat) +:+ "_"
        +:+ show_bool (mPeriodicity this !!! 1%nat) +:+ "_"
        +:+ show_bool (mPeriodicity this !!! 2%nat) +:+ "_"
        +:+ show_unsigned (mNumEigenvals this) +:+ "_"
        +:+ show_double (mLengthScale this)
        +:+ ".rfg")
  | _ => None (* NEVER_REACHED *)
  end.
End CacheKey.

(** ** Cache codec *)

(** Modelled from the spec: [resize] of the Eigen containers (their
    declaration is not part of the sources). Storage of the requested size
    is kept as it is, any other size gives fresh storage that is not
    initialised. *)
Definition resize_storage (old : list double) (new_size : Z) : IO (list byte) :=
  if Z.of_nat (length old) =? new_size
  then mret (encode_array 8 old)
  else uninitialised (8 * Z.to_nat new_size).

(** [std::accumulate(begin, end, 1u, std::multiplies<unsigned>())] *)
Definition total_gridpts_of (numGridPts : list unsigned) : unsigned :=
  fold_left umul numGridPts 1.

Definition LoadFromCache (this : UniformGridRandomFieldGenerator)
    (absoluteFilePath : string) : IO UniformGridRandomFieldGenerator :=
  header ← uninitialised (sizeof_header SPACE_DIM);
  input_file ← ifstream_open absoluteFilePath;
  _ ← EXCEPT_IF_NOT (in_open input_file) "input_file.is_open()";
  (* Read the header, and populate class parameters *)
  '(header, input_file) ←
    ifstream_read input_file header (Z.of_nat (sizeof_header SPACE_DIM));
  let lowerCorner := header_mLowerCorner SPACE_DIM header in
  let upperCorner := header_mUpperCorner SPACE_DIM header in
  let numGridPts := header_mNumGridPts SPACE_DIM header in
  let periodicity := header_mPeriodicity SPACE_DIM header in
  let numEigenvals := header_mNumEigenvals SPACE_DIM header in
  let lengthScale := header_mLengthScale SPACE_DIM header in
  (* Total number of grid points; resize the eigen data arrays *)
  let total_gridpts := total_gridpts_of numGridPts in
  eigenvals ← resize_storage (mEigenvals this) numEigenvals;
  eigenvecs ← resize_storage (m_data (mEigenvecs this)) (total_gridpts * numEigenvals);
  (* Read the eigenvalues and eigenvectors *)
  '(eigenvals, input_file) ←
    ifstream_read input_file eigenvals (numEigenvals * 8);
  '(eigenvecs, input_file) ←
    ifstream_read input_file eigenvecs (umul total_gridpts numEigenvals * 8);
  _ ← ifstream_close input_file;
  mret {| mLowerCorner := lowerCorner;
          mUpperCorner := upperCorner;
          mNumGridPts := numGridPts;
          mPeriodicity := periodicity;
          mNumEigenvals := numEigenvals;
          mLengthScale := lengthScale;
          mEigenvals := decode_array 8 (Z.to_nat numEigenvals) eigenvals;
          mEigenvecs :=
            {| m_rows := total_gridpts;
               m_cols := numEigenvals;
               m_data := decode_array 8 (Z.to_nat (total_gridpts * numEigenvals))
                           eigenvecs |} |}.

(** The header object of [SaveToCache] once its six members are assigned;
    [header] is the object before, not initialised. *)
Definition fill_header (this : UniformGridRandomFieldGenerator)
    (header : list byte) : list byte :=
  let header := store (off_mLowerCorner) (encode_array 8 (mLowerCorner this)) header in
  let header := store (off_mUpperCorner SPACE_DIM) (encode_array 8 (mUpperCorner this)) header in
  let header := store (off_mNumGridPts SPACE_DIM) (encode_array 4 (mNumGridPts this)) header in
  let header := store (off_mPeriodicity SPACE_DIM)
                  (encode_array 1 (map Z_of_bool (mPeriodicity this))) header in
  let header := store (off_mNumEigenvals SPACE_DIM) (le_split 4 (mNumEigenvals this)) header in
  store (off_mLengthScale SPACE_DIM) (le_split 8 (mLengthScale this)) header.

Definition SaveToCache (this : UniformGridRandomFieldGenerator) : IO unit :=
  match GetFilenameFromParams this with
  | None => terminate
  | Some name =>
      let cached_version_file := {| relative_path := name |} in
      path ← GetAbsolutePath cached_version_file;
      output_file ← ofstream_open path;
      _ ← EXCEPT_IF_NOT (out_open output_file) "output_file.is_open()";
      (* Generate the header struct *)
      header ← uninitialised (sizeof_header SPACE_DIM);
      let header := fill_header this header in
      (* Write the information to file *)
      _ ← ofstream_write output_file header;
      _ ← ofstream_write output_file (encode_array 8 (mEigenvals this));
      _ ← ofstream_write output_file (encode_array 8 (m_data (mEigenvecs this)));
      ofstream_close output_file
  end.

(** ** Generator construction *)

Definition initial_object (lowerCorner upperCorner : list double)
    (numGridPts : list unsigned) (periodicity : list bool)
    (numEigenvals : unsigned) (lengthScale : double)
    : UniformGridRandomFieldGenerator :=
  {| mLowerCorner := lowerCorner;
     mUpperCorner := upperCorner;
     mNumGridPts := numGridPts;
     mPeriodicity := periodicity;
     mNumEigenvals := numEigenvals;
     mLengthScale := lengthScale;
     mEigenvals := [];
     mEigenvecs := empty_matrix |}.

Definition constructor (lowerCorner upperCorner : list double)
    (numGridPts : list unsigned) (periodicity : list bool)
    (numEigenvals : unsigned) (lengthScale : double)
    : IO UniformGridRandomFieldGenerator :=
  let this := initial_object lowerCorner upperCorner numGridPts periodicity
                numEigenvals lengthScale in
  (* First check if there's a cached random field matching these parameters *)
  match GetFilenameFromParams this with
  | None => terminate
  | Some name =>
      let cached_version_file := {| relative_path := name |} in
      found ← Exists cached_version_file;
      if (found : bool) then
        path ← GetAbsolutePath cached_version_file;
        LoadFromCache this path
      else
        mret this
  end.
End Generator.

(** ** Sample objects *)

(** 0.25, 0.5, 0.5004, 0.75 and 1.0 as stored doubles. *)
Definition d_0_25 : double := 0x3FD0000000000000.
Definition d_0_5 : double := 0x3FE0000000000000.
Definition d_0_5004 : double := 0x3FE00346DC5D6388.
Definition d_0_75 : double := 0x3FE8000000000000.
Definition d_1_0 : double := 0x3FF0000000000000.

(** A periodic axis from 0 to 1. *)
Definition periodic_unit_axis : UniformGridRandomFieldGenerator :=
  initial_object [0] [d_1_0] [5] [true] 2 d_0_5.

(** The end-to-end example of the specification: two dimensions, the unit
    square, a 3 by 3 grid, no periodicity, 4 eigenvalues, length scale 0.5. *)
Definition unit_square : UniformGridRandomFieldGenerator :=
  initial_object [0; 0] [d_1_0; d_1_0] [3; 3] [false; false] 4 d_0_5.

(** The same with a length scale of 0.5004. *)
Definition unit_square_0_5004 : UniformGridRandomFieldGenerator :=
  initial_object [0; 0] [d_1_0; d_1_0] [3; 3] [false; false] 4 d_0_5004.

(** ** The cache key as the specification words it *)

Definition dimension_tag (SPACE_DIM : nat) : string :=
  match SPACE_DIM with
  | 1%nat => "x_"
  | 2%nat => "xy_"
  | 3%nat => "xyz_"
  | _ => ""
  end.

Definition per_axis {A} (SPACE_DIM : nat) (show : A -> string) (arr : nat -> A)
    : list string :=
  map (fun d => show (arr d)) (seq 0 SPACE_DIM).

(** The fields of the key in their order, each as the code renders it. *)
Definition key_fields (SPACE_DIM : nat) (this : UniformGridRandomFieldGenerator)
    : list string :=
  per_axis SPACE_DIM show_double (fun d => mLowerCorner this !!! d) ++
  per_axis SPACE_DIM show_double (fun d => mUpperCorner this !!! d) ++
  per_axis SPACE_DIM show_unsigned (fun d => mNumGridPts this !!! d) ++
  per_axis SPACE_DIM show_bool (fun d => mPeriodicity this !!! d) ++
  [show_unsigned (mNumEigenvals this); show_double (mLengthScale this)].

Definition cache_filename (SPACE_DIM : nat) (this : UniformGridRandomFieldGenerator)
    : string :=
  "CachedRandomFields/" +:+ dimension_tag SPACE_DIM +:+
  String.concat "_" (key_fields SPACE_DIM this) +:+ ".rfg".

(** An integer rendered with three decimals, [3] as [3.000]. *)
Definition show_integer_fixed3 (u : Z) : string :=
  show_fixed3 false (F3_thousandths (u * 1000)).

(** The fields with every numeric field at three decimals. *)
Definition all_fixed3_fields (SPACE_DIM : nat) (this : UniformGridRandomFieldGenerator)
    : list string :=
  per_axis SPACE_DIM show_double (fun d => mLowerCorner this !!! d) ++
  per_axis SPACE_DIM show_double (fun d => mUpperCorner this !!! d) ++
  per_axis SPACE_DIM show_integer_fixed3 (fun d => mNumGridPts this !!! d) ++
  per_axis SPACE_DIM show_integer_fixed3 (fun d => Z_of_bool (mPeriodicity this !!! d)) ++
  [show_integer_fixed3 (mNumEigenvals this); show_double (mLengthScale this)].

Definition all_fixed3_filename (SPACE_DIM : nat) (this : UniformGridRandomFieldGenerator)
    : string :=
  dimension_tag SPACE_DIM +:+
  String.concat "_" (all_fixed3_fields SPACE_DIM this) +:+ ".rfg".

Definition is_digit (c : ascii) : bool :=
  (48 <=? nat_of_ascii c)%nat && (nat_of_ascii c <=? 57)%nat.

Fixpoint all_digits (s : string) : bool :=
  match s with
  | EmptyString => true
  | String c s' => is_digit c && all_digits s'
  end.

(** A decimal integer: one digit at least, digits only. *)
Definition plain_integer (s : string) : Prop :=
  s <> "" /\ all_digits s = true.

(** An optional minus sign, a decimal integer part, a point and exactly
    three decimal digits. *)
Definition three_decimals (s : string) : Prop :=
  exists (negative : bool) (ip : string) (d1 d2 d3 : ascii),
    s = (if negative then "-" else "") +:+ ip +:+ "." +:+
        String d1 (String d2 (String d3 "")) /\
    plain_integer ip /\
    is_digit d1 = true /\ is_digit d2 = true /\ is_digit d3 = true.

(** Not an infinity, not a NaN. *)
Definition is_finite_double (b : double) : Prop :=
  match dval b with
  | S754_zero _ | S754_finite _ _ _ => True
  | _ => False
  end.

(** The three-decimal representation of a stored double. *)
Definition fixed3_repr (b : double) : bool * fixed3 :=
  (double_sign b, round3 (dval b)).

(** Same parameters. *)
Definition same_params (g1 g2 : UniformGridRandomFieldGenerator) : Prop :=
  mLowerCorner g1 = mLowerCorner g2 /\
  mUpperCorner g1 = mUpperCorner g2 /\
  mNumGridPts g1 = mNumGridPts g2 /\
  mPeriodicity g1 = mPeriodicity g2 /\
  mNumEigenvals g1 = mNumEigenvals g2 /\
  mLengthScale g1 = mLengthScale g2.

(** Same parameters once every field is rounded to three decimals (which
    leaves the integer fields as they are). *)
Definition same_params_at_3_decimals (g1 g2 : UniformGridRandomFieldGenerator) : Prop :=
  Forall2 (fun a b => fixed3_repr a = fixed3_repr b) (mLowerCorner g1) (mLowerCorner g2) /\
  Forall2 (fun a b => fixed3_repr a = fixed3_repr b) (mUpperCorner g1) (mUpperCorner g2) /\
  mNumGridPts g1 = mNumGridPts g2 /\
  mPeriodicity g1 = mPeriodicity g2 /\
  mNumEigenvals g1 = mNumEigenvals g2 /\
  fixed3_repr (mLengthScale g1) = fixed3_repr (mLengthScale g2).

(** ** Cache records *)

(** The object denoted by a header and the two payload buffers, as
    [LoadFromCache] leaves it. *)
Definition object_of_record (SPACE_DIM : nat) (header eigenvals eigenvecs : list byte)
    : UniformGridRandomFieldGenerator :=
  let numEigenvals := header_mNumEigenvals SPACE_DIM header in
  let total_gridpts := total_gridpts_of (header_mNumGridPts SPACE_DIM header) in
  {| mLowerCorner := header_mLowerCorner SPACE_DIM header;
     mUpperCorner := header_mUpperCorner SPACE_DIM header;
     mNumGridPts := header_mNumGridPts SPACE_DIM header;
     mPeriodicity := header_mPeriodicity SPACE_DIM header;
     mNumEigenvals := numEigenvals;
     mLengthScale := header_mLengthScale SPACE_DIM header;
     mEigenvals := decode_array 8 (Z.to_nat numEigenvals) eigenvals;
     mEigenvecs :=
       {| m_rows := total_gridpts;
          m_cols := numEigenvals;
          m_data := decode_array 8 (Z.to_nat (total_gridpts * numEigenvals)) eigenvecs |} |}.

(** The stream operations of one [LoadFromCache] that found its file. *)
Definition load_events (SPACE_DIM : nat) (path : string) (numEigenvals total_gridpts : unsigned)
    : list event :=
  [EvOpenIn path true;
   EvRead (Z.of_nat (sizeof_header SPACE_DIM));
   EvRead (numEigenvals * 8);
   EvRead (umul total_gridpts numEigenvals * 8);
   EvCloseIn].

(** The bytes of a cache file written for [this], the header object having
    held [header] before its members were assigned. *)
Definition record_bytes (SPACE_DIM : nat) (this : UniformGridRandomFieldGenerator)
    (header : list byte) : list byte :=
  fill_header SPACE_DIM this header ++
  encode_array 8 (mEigenvals this) ++
  encode_array 8 (m_data (mEigenvecs this)).

(** The outside world is the same but for storage handed out. *)
Definition same_world (w w' : World) : Prop :=
  files w' = files w /\ readable w' = readable w /\ writable w' = writable w /\
  heap w' = heap w /\ test_output w' = test_output w /\ trace w' = trace w.

(** Every member holds a value of its C++ type: the arrays have [SPACE_DIM]
    elements, a double has 64 bits, an unsigned 32. *)
Definition well_typed (SPACE_DIM : nat) (this : UniformGridRandomFieldGenerator) : Prop :=
  length (mLowerCorner this) = SPACE_DIM /\
  length (mUpperCorner this) = SPACE_DIM /\
  length (mNumGridPts this) = SPACE_DIM /\
  length (mPeriodicity this) = SPACE_DIM /\
  Forall (in_range 8) (mLowerCorner this) /\
  Forall (in_range 8) (mUpperCorner this) /\
  Forall (in_range 4) (mNumGridPts this) /\
  in_range 4 (mNumEigenvals this) /\
  in_range 8 (mLengthScale this) /\
  Forall (in_range 8) (mEigenvals this) /\
  Forall (in_range 8) (m_data (mEigenvecs this)).

(** The eigen data have the sizes [LoadFromCache] derives from the
    parameters: [numEigenvals] eigenvalues, and a matrix of [totalGridPoints]
    rows and [numEigenvals] columns holding as many doubles as are read back,
    the unsigned product of the two. *)
Definition sized_by_params (this : UniformGridRandomFieldGenerator) : Prop :=
  Z.of_nat (length (mEigenvals this)) = mNumEigenvals this /\
  m_rows (mEigenvecs this) = total_gridpts_of (mNumGridPts this) /\
  m_cols (mEigenvecs this) = mNumEigenvals this /\
  Z.of_nat (length (m_data (mEigenvecs this))) =
    m_rows (mEigenvecs this) * m_cols (mEigenvecs this) /\
  Z.of_nat (length (m_data (mEigenvecs this))) =
    umul (total_gridpts_of (mNumGridPts this)) (mNumEigenvals this).

(** ** Two statements of the specification, as worded *)

(** A cold construction computes the eigen data and saves them: the object
    comes out with its [numEigenvals] eigenvalues and the cache file of its
    key is on disk. *)
Definition cold_construction_saves (SPACE_DIM : nat)
    (lowerCorner upperCorner : list double) (numGridPts : list unsigned)
    (periodicity : list bool) (numEigenvals : unsigned) (lengthScale : double)
    (w : World) : Prop :=
  forall name,
    GetFilenameFromParams SPACE_DIM
      (initial_object lowerCorner upperCorner numGridPts periodicity
         numEigenvals lengthScale) = Some name ->
    files w !! (test_output w +:+ name) = None ->
    exists g w',
      constructor SPACE_DIM lowerCorner upperCorner numGridPts periodicity
        numEigenvals lengthScale w = (Ok g, w') /\
      Z.of_nat (length (mEigenvals g)) = mNumEigenvals g /\
      is_Some (files w' !! (test_output w +:+ name)).

(** Loading what was saved for [this] gives [this] again. *)
Definition round_trips (SPACE_DIM : nat) (this : UniformGridRandomFieldGenerator)
    (w : World) : Prop :=
  forall name w1,
    GetFilenameFromParams SPACE_DIM this = Some name ->
    SaveToCache SPACE_DIM this w = (Ok tt, w1) ->
    exists w2,
      LoadFromCache SPACE_DIM this (test_output w +:+ name) w1 = (Ok this, w2).

(** ** Sample worlds *)

(** Nothing on disk, every path may be opened. *)
Definition empty_world : World :=
  {| files := ∅;
     readable := fun _ => true;
     writable := fun _ => true;
     heap := fun _ => Byte.xaa;
     brk := 0;
     test_output := "/testoutput/";
     trace := [] |}.

(** One axis from 0 to 1 with 2 grid points, one eigenvalue and a length
    scale of 0.5004, with its eigen data. *)
Definition cached_axis : UniformGridRandomFieldGenerator :=
  {| mLowerCorner := [0];
     mUpperCorner := [d_1_0];
     mNumGridPts := [2];
     mPeriodicity := [false];
     mNumEigenvals := 1;
     mLengthScale := d_0_5004;
     mEigenvals := [d_1_0];
     mEigenvecs := {| m_rows := 2; m_cols := 1; m_data := [d_0_5; d_0_75] |} |}.

Definition cached_axis_path : string :=
  "/testoutput/CachedRandomFields/x_0.000_1.000_2_0_1_0.500.rfg".

(** The record of [cached_axis] is on disk. *)
Definition warm_world : World :=
  {| files := {[ cached_axis_path := record_bytes 1 cached_axis (repeat Byte.x00 40) ]};
     readable := fun _ => true;
     writable := fun _ => true;
     heap := fun _ => Byte.xaa;
     brk := 0;
     test_output := "/testoutput/";
     trace := [] |}.

(** A 2 by 2 grid on the unit square, periodic in x, with two eigenvalues. *)
Definition cached_square : UniformGridRandomFieldGenerator :=
  {| mLowerCorner := [0; 0];
     mUpperCorner := [d_1_0; d_1_0];
     mNumGridPts := [2; 2];
     mPeriodicity := [true; false];
     mNumEigenvals := 2;
     mLengthScale := d_0_5;
     mEigenvals := [d_1_0; d_0_25];
     mEigenvecs :=
       {| m_rows := 4; m_cols := 2;
          m_data := [d_0_5; d_0_5; d_0_5; d_0_5; d_0_5; d_0_25; d_0_75; d_1_0] |} |}.

(** A 2 by 1 by 2 grid on the unit cube, periodic in y, with one eigenvalue. *)
Definition cached_cube : UniformGridRandomFieldGenerator :=
  {| mLowerCorner := [0; 0; 0];
     mUpperCorner := [d_1_0; d_1_0; d_1_0];
     mNumGridPts := [2; 1; 2];
     mPeriodicity := [false; true; false];
     mNumEigenvals := 1;
     mLengthScale := d_0_75;
     mEigenvals := [d_0_5];
     mEigenvecs :=
       {| m_rows := 4; m_cols := 1; m_data := [d_0_25; d_0_5; d_0_75; d_1_0] |} |}.

(** Nothing can be opened, the file of [cached_axis] is there. *)
Definition locked_world : World :=
  {| files := {[ cached_axis_path := record_bytes 1 cached_axis (repeat Byte.x00 40) ]};
     readable := fun _ => false;
     writable := fun _ => false;
     heap := fun _ => Byte.xaa;
     brk := 0;
     test_output := "/testoutput/";
     trace := [] |}.

(** ** Notions for further properties of the code *)

(** A NaN, or a double whose sign bit is clear (so not [-0.0] either). *)
Definition not_negative (x : spec_float) : Prop :=
  match x with
  | S754_nan => True
  | S754_zero s | S754_infinity s | S754_finite s _ _ => s = false
  end.

(** Neither an infinity nor a NaN. *)
Definition is_finite (x : spec_float) : Prop :=
  match x with
  | S754_zero _ | S754_finite _ _ _ => True
  | _ => False
  end.

(** A quiet NaN as a stored double. *)
Definition d_nan : double := 0x7FF8000000000000.

(** A periodic axis whose corners are the wrong way round, from 1 to 0. *)
Definition reversed_unit_axis : UniformGridRandomFieldGenerator :=
  initial_object [d_1_0] [0] [5] [true] 2 d_0_5.

(** Whether the character occurs in the string. *)
Fixpoint has_char (c : ascii) (s : string) : bool :=
  match s with
  | EmptyString => false
  | String a s' => Ascii.eqb a c || has_char c s'
  end.

(** The six parameters hold values of their C++ types: arrays of
    [SPACE_DIM] elements, unsigned numbers of 32 bits. *)
Definition params_well_typed (SPACE_DIM : nat)
    (this : UniformGridRandomFieldGenerator) : Prop :=
  length (mLowerCorner this) = SPACE_DIM /\
  length (mUpperCorner this) = SPACE_DIM /\
  length (mNumGridPts this) = SPACE_DIM /\
  length (mPeriodicity this) = SPACE_DIM /\
  Forall (in_range 4) (mNumGridPts this) /\
  in_range 4 (mNumEigenvals this).

(** The thousandths of a representation are not negative. *)
Definition fixed3_ok (r : fixed3) : Prop :=
  match r with
  | F3_thousandths q => 0 <= q
  | _ => True
  end.

(** An operation on an input stream. *)
Definition input_event (e : event) : Prop :=
  match e with
  | EvOpenIn _ _ | EvRead _ | EvCloseIn => True
  | _ => False
  end.

(** The cache file of [cached_axis] cut off after its first 20 bytes, in
    the middle of the header; storage as found holds zeros. *)
Definition truncated_world : World :=
  {| files := {[ cached_axis_path :=
                   take 20 (record_bytes 1 cached_axis (repeat Byte.x00 40)) ]};
     readable := fun _ => true;
     writable := fun _ => true;
     heap := fun _ => Byte.x00;
     brk := 0;
     test_output := "/testoutput/";
     trace := [] |}.
(** ** Checks of the number model *)

Example dval_examples :
  dval 0 = S754_zero false /\
  dval 0x8000000000000000 = S754_zero true /\
  dval d_0_75 = S754_finite false 6755399441055744 (-53) /\
  dval d_1_0 = S754_finite false 4503599627370496 (-52) /\
  dval 0x0000000000000001 = S754_finite false 1 (-1074) /\
  dval 0xFFF0000000000000 = S754_infinity true /\
  dval 0x7FF8000000000000 = S754_nan.
Proof. repeat split. Qed.

Example arithmetic_examples :
  fsub (dval d_1_0) (dval d_0_75) = dval d_0_25 /\
  fmul (dval d_0_5) (dval d_0_5) = dval d_0_25 /\
  fadd (dval d_0_25) (dval d_0_5) = dval d_0_75 /\
  std_min (dval d_0_75) (dval d_0_25) = dval d_0_25 /\
  std_min (dval d_0_75) S754_nan = dval d_0_75.
Proof. repeat split. Qed.

Example show_double_examples :
  show_double d_0_5 = "0.500" /\
  show_double d_0_5004 = "0.500" /\
  show_double 0x3F40624DD2F1A9FC = "0.001" /\
  show_double 0x8000000000000000 = "-0.000" /\
  show_double 0xC0934A456D5CFAAD = "-1234.568" /\
  show_double 0x4341C37937E08000 = "10000000000000000.000" /\
  show_double 0x7FF0000000000000 = "inf" /\
  show_double 0xFFF8000000000000 = "-nan".
Proof. repeat split. Qed.

Example header_layout_examples :
  (sizeof_header 1, off_mNumEigenvals 1, off_mLengthScale 1) = (40, 24, 32)%nat /\
  (sizeof_header 2, off_mNumEigenvals 2, off_mLengthScale 2) = (56, 44, 48)%nat /\
  (sizeof_header 3, off_mNumEigenvals 3, off_mLengthScale 3) = (80, 64, 72)%nat.
Proof. repeat split. Qed.

(** ** Floating-point facts *)

Lemma digits2_pos_log2 p : Zpos (digits2_pos p) = Z.log2 (Zpos p) + 1.
Proof.
  assert (Hs : forall q, digits2_pos q = Pos.size q)
    by (induction q; simpl; congruence).
  rewrite Hs. destruct p; simpl; lia.
Qed.

Lemma double_frac_range b : 0 <= double_frac b < 2 ^ 52.
Proof.
  unfold double_frac. rewrite Z.land_ones by lia. apply Z.mod_pos_bound.
  reflexivity.
Qed.

Lemma double_expt_range b : 0 <= double_expt b <= 2047.
Proof.
  unfold double_expt. change (Z.land (Z.shiftr b 52) 2047)
    with (Z.land (Z.shiftr b 52) (Z.ones 11)).
  rewrite Z.land_ones by lia. change (2 ^ 11) with 2048.
  pose proof (Z.mod_pos_bound (Z.shiftr b 52) 2048 eq_refl). lia.
Qed.

(** Every bit pattern denotes a canonical binary64 number. *)
Lemma dval_valid b : valid_binary prec emax (dval b) = true.
Proof.
  unfold dval.
  pose proof (double_frac_range b) as Hm.
  pose proof (double_expt_range b) as He.
  destruct (Z.eqb_spec (double_expt b) 0) as [E0|E0].
  - destruct (double_frac b) as [|p|p] eqn:Ep; try reflexivity.
    unfold valid_binary, bounded, canonical_mantissa, fexp, emin, prec, emax.
    rewrite digits2_pos_log2.
    assert (Z.log2 (Z.pos p) < 52) by (apply Z.log2_lt_pow2; lia).
    apply andb_true_iff. split; [apply Z.eqb_eq | apply Z.leb_le]; lia.
  - destruct (Z.eqb_spec (double_expt b) 2047) as [E1|E1].
    + destruct (double_frac b =? 0); reflexivity.
    + unfold valid_binary, bounded, canonical_mantissa, fexp, emin, prec, emax.
      rewrite digits2_pos_log2, Z2Pos.id by lia.
      assert (Z.log2 (double_frac b + 2 ^ 52) = 52).
      { apply Z.log2_unique; lia. }
      apply andb_true_iff. split; [apply Z.eqb_eq | apply Z.leb_le]; lia.
Qed.


Lemma binary_round_aux_abs s m e l :
  SFabs (binary_round_aux prec emax s m e l) =
  SFabs (binary_round_aux prec emax false m e l).
Proof.
  unfold binary_round_aux.
  destruct (shr_fexp prec emax m e l) as [mrs' e'].
  destruct (shr_fexp prec emax _ e' loc_Exact) as [mrs'' e''].
  destruct (shr_m mrs''); [reflexivity | | reflexivity].
  destruct (e'' <=? emax - prec); reflexivity.
Qed.

Lemma binary_round_abs s m e :
  SFabs (binary_round prec emax s m e) = SFabs (binary_round prec emax false m e).
Proof.
  unfold binary_round.
  destruct (shl_align m e _) as [mz ez].
  apply binary_round_aux_abs.
Qed.

Lemma binary_normalize_abs_opp m e :
  SFabs (binary_normalize prec emax (- m) e false) =
  SFabs (binary_normalize prec emax m e false).
Proof.
  destruct m as [|p|p]; simpl; [reflexivity | |].
  - apply binary_round_abs.
  - symmetry. apply binary_round_abs.
Qed.

(** [|x - y|] and [|y - x|] are the same double. *)
Lemma fabs_fsub_comm x y : fabs (fsub x y) = fabs (fsub y x).
Proof.
  unfold fabs, fsub.
  destruct x as [sx|sx| |sx mx ex], y as [sy|sy| |sy my ey];
    try (destruct sx, sy; reflexivity);
    try (destruct sx; reflexivity); try (destruct sy; reflexivity);
    try reflexivity.
  unfold SFsub. rewrite (Z.min_comm ey ex).
  set (a := cond_Zopp sx _). set (b := cond_Zopp sy _).
  replace (b - a) with (- (a - b)) by lia.
  symmetry. apply binary_normalize_abs_opp.
Qed.

Lemma dist_step_comm this a b acc dim :
  dist_step this a b acc dim = dist_step this b a acc dim.
Proof.
  unfold dist_step.
  rewrite (fabs_fsub_comm (dval (b !!! dim)) (dval (a !!! dim))).
  reflexivity.
Qed.

Lemma dist_loop_comm this a b n : forall from acc,
  dist_loop this a b n from acc = dist_loop this b a n from acc.
Proof.
  induction n as [|n IH]; intros from acc; simpl; [reflexivity|].
  rewrite (dist_step_comm this a b). apply IH.
Qed.

(** C5: for every pair of coordinates, the squared distance from [a] to [b]
    is the squared distance from [b] to [a]. *)
Theorem GetSquaredDistAtoB_symmetric SPACE_DIM this (a b : list double) :
  GetSquaredDistAtoB SPACE_DIM this a b = GetSquaredDistAtoB SPACE_DIM this b a.
Proof.
  unfold GetSquaredDistAtoB. apply dist_loop_comm.
Qed.

(** C++ [==] on the two distances: true unless they are NaN. *)
Lemma SFeqb_refl x : x <> S754_nan -> SFeqb x x = true.
Proof.
  unfold SFeqb.
  destruct x as [s|s| |s m e]; intros H; try reflexivity;
    [destruct s; reflexivity | congruence |].
  unfold SFcompare.
  destruct s; rewrite Z.compare_refl, Pos.compare_cont_refl; reflexivity.
Qed.

Lemma GetSquaredDistAtoB_eqb SPACE_DIM this (a b : list double) :
  GetSquaredDistAtoB SPACE_DIM this a b <> S754_nan ->
  SFeqb (GetSquaredDistAtoB SPACE_DIM this a b)
        (GetSquaredDistAtoB SPACE_DIM this b a) = true.
Proof.
  unfold GetSquaredDistAtoB. intros H.
  rewrite <- (dist_loop_comm this a b). apply SFeqb_refl, H.
Qed.

(** ** The distance against its specification *)

Lemma dist_step_spec this p1 p2 acc d :
  dist_step this p1 p2 acc d =
  fadd acc (fmul (spec_delta this p1 p2 d) (spec_delta this p1 p2 d)).
Proof.
  unfold dist_step, spec_delta, spec_width.
  destruct (mPeriodicity this !!! d); reflexivity.
Qed.

Lemma dist_loop_fold this p1 p2 n : forall from acc,
  dist_loop this p1 p2 n from acc =
  fold_left fadd
    (map (fun d => fmul (spec_delta this p1 p2 d) (spec_delta this p1 p2 d))
       (seq from n)) acc.
Proof.
  induction n as [|n IH]; intros from acc; simpl; [reflexivity|].
  rewrite IH, dist_step_spec. reflexivity.
Qed.

(** Subtracting [+0.0] changes nothing. *)
Lemma fsub_zero_r x : fsub x (S754_zero false) = x.
Proof. destruct x as [[]|[]| |[] m e]; reflexivity. Qed.

Lemma dval_sign_abs x : double_sign x = false -> fabs (dval x) = dval x.
Proof.
  intros Hs. unfold dval. rewrite Hs.
  destruct (double_expt x =? 0).
  - destruct (double_frac x); reflexivity.
  - destruct (double_expt x =? 2047); [|reflexivity].
    destruct (double_frac x =? 0); reflexivity.
Qed.

Lemma fadd_zero_round m e l :
  fadd (S754_zero false) (binary_round_aux prec emax false m e l) =
  binary_round_aux prec emax false m e l.
Proof.
  unfold binary_round_aux.
  destruct (shr_fexp prec emax m e l) as [mrs' e'].
  destruct (shr_fexp prec emax _ e' loc_Exact) as [mrs'' e''].
  destruct (shr_m mrs''); [reflexivity | | reflexivity].
  destruct (e'' <=? emax - prec); reflexivity.
Qed.

(** A square added to the initial [0.0] is that square. *)
Lemma fadd_zero_square d : fadd (S754_zero false) (fmul d d) = fmul d d.
Proof.
  destruct d as [[]|[]| |s m e]; try reflexivity.
  unfold fmul, SFmul. rewrite xorb_nilpotent. apply fadd_zero_round.
Qed.

Example wrap_example :
  GetSquaredDistAtoB 1 periodic_unit_axis [0] [d_0_75] = fmul (dval d_0_25) (dval d_0_25)
  /\ GetSquaredDistAtoB 1 periodic_unit_axis [0] [d_0_75] <> fmul (dval d_0_75) (dval d_0_75).
Proof. split; [vm_compute; reflexivity | vm_compute; discriminate]. Qed.

(** C6: the squared distance accumulates, axis by axis, the square of
    [delta = |p2[d] - p1[d]|], replaced on a periodic axis by
    [min(delta, width[d] - delta)]; and on one periodic axis of width [W] the
    points [0] and [x = W - eps], with [eps] the shorter way round, are at
    squared distance [eps * eps]. *)
Theorem GetSquaredDistAtoB_periodic :
  (forall SPACE_DIM this (p1 p2 : list double),
     GetSquaredDistAtoB SPACE_DIM this p1 p2 = spec_SquaredDistance SPACE_DIM this p1 p2)
  /\
  (forall this (x : double),
     mPeriodicity this !!! 0%nat = true ->
     double_sign x = false ->
     let W := fsub (dval (mUpperCorner this !!! 0%nat)) (dval (mLowerCorner this !!! 0%nat)) in
     let eps := fsub W (dval x) in
     flt eps (dval x) = true ->
     GetSquaredDistAtoB 1 this [0] [x] = fmul eps eps).
Proof.
  split.
  - intros. unfold GetSquaredDistAtoB, spec_SquaredDistance. apply dist_loop_fold.
  - intros this x Hper Hsign W eps Hlt.
    unfold GetSquaredDistAtoB. cbn [dist_loop]. unfold dist_step. rewrite Hper.
    change ([x] !!! 0%nat) with x. change ([0] !!! 0%nat) with 0.
    change (dval 0) with (S754_zero false).
    rewrite fsub_zero_r, (dval_sign_abs x Hsign).
    fold W. fold eps. unfold std_min. rewrite Hlt.
    apply fadd_zero_square.
Qed.

Lemma GetSquaredDistAtoB_periodic_witness :
  mPeriodicity periodic_unit_axis !!! 0%nat = true /\
  double_sign d_0_75 = false /\
  GetSquaredDistAtoB 1 periodic_unit_axis [0] [d_0_75] =
    S754_finite false 4503599627370496 (-56).
Proof.
  split; [reflexivity|]. split; [reflexivity|].
  rewrite (proj2 GetSquaredDistAtoB_periodic periodic_unit_axis d_0_75);
    [vm_compute; reflexivity | reflexivity | reflexivity | vm_compute; reflexivity].
Defined.

(** ** The cache key *)

Lemma string_append_assoc (s1 s2 s3 : string) :
  (s1 +:+ s2) +:+ s3 = s1 +:+ (s2 +:+ s3).
Proof.
  induction s1 as [|c s1 IH]; [reflexivity|].
  change (String c ((s1 +:+ s2) +:+ s3) = String c (s1 +:+ (s2 +:+ s3))).
  now rewrite IH.
Qed.

Lemma GetFilenameFromParams_fields SPACE_DIM this :
  (1 <= SPACE_DIM <= 3)%nat ->
  GetFilenameFromParams SPACE_DIM this = Some (cache_filename SPACE_DIM this).
Proof.
  intros H.
  assert (SPACE_DIM = 1 \/ SPACE_DIM = 2 \/ SPACE_DIM = 3)%nat as [->|[->| ->]] by lia;
    unfold GetFilenameFromParams, cache_filename, key_fields, per_axis, dimension_tag;
    cbn [seq map app String.concat];
    rewrite !string_append_assoc; reflexivity.
Qed.

Lemma string_of_uint_digits d :
  all_digits (NilEmpty.string_of_uint d) = true.
Proof. induction d; simpl; auto. Qed.

Lemma show_unsigned_plain u : plain_integer (show_unsigned u).
Proof.
  unfold plain_integer, show_unsigned, NilZero.string_of_uint.
  destruct (N.to_uint (Z.to_N u)); (split; [discriminate|]);
    try reflexivity; simpl; apply string_of_uint_digits.
Qed.

Lemma digit_is_digit q : is_digit (digit (q mod 10)) = true.
Proof.
  unfold digit.
  assert (H : (Z.to_nat (q mod 10) < 10)%nat).
  { pose proof (Z.mod_pos_bound q 10). lia. }
  destruct (Z.to_nat (q mod 10)) as [|[|[|[|[|[|[|[|[|[|n]]]]]]]]]]; try reflexivity; lia.
Qed.

Lemma show_double_three_decimals b :
  is_finite_double b -> three_decimals (show_double b).
Proof.
  unfold is_finite_double, show_double, show_fixed3, three_decimals.
  intros H.
  assert (exists q, round3 (dval b) = F3_thousandths q) as [q ->].
  { destruct (dval b); simpl in *; try contradiction; eauto. }
  exists (double_sign b), (show_unsigned (q / 1000)),
    (digit (q / 100 mod 10)), (digit (q / 10 mod 10)), (digit (q mod 10)).
  split; [reflexivity|].
  split; [apply show_unsigned_plain|].
  repeat split; apply digit_is_digit.
Qed.

Lemma show_bool_flag b : show_bool b = "0" \/ show_bool b = "1".
Proof. destruct b; auto. Qed.

Example unit_square_filename :
  GetFilenameFromParams 2 unit_square =
  Some "CachedRandomFields/xy_0.000_0.000_1.000_1.000_3_3_0_0_4_0.500.rfg".
Proof. vm_compute. reflexivity. Qed.

(** C4, as stated, fails: the grid sizes, the periodicity flags and the number
    of eigenvalues are not written with three decimals. For the parameters of
    the specification's example the code gives
    [xy_0.000_0.000_1.000_1.000_3_3_0_0_4_0.500.rfg] inside
    [CachedRandomFields/], not the name with every field at three decimals. *)
Lemma GetFilenameFromParams_not_all_fixed3 :
  GetFilenameFromParams 2 unit_square =
    Some "CachedRandomFields/xy_0.000_0.000_1.000_1.000_3_3_0_0_4_0.500.rfg"
  /\ all_fixed3_filename 2 unit_square =
       "xy_0.000_0.000_1.000_1.000_3.000_3.000_0.000_0.000_4.000_0.500.rfg"
  /\ GetFilenameFromParams 2 unit_square <> Some (all_fixed3_filename 2 unit_square)
  /\ GetFilenameFromParams 2 unit_square <>
       Some ("CachedRandomFields/" +:+ all_fixed3_filename 2 unit_square)
  /\ ~ three_decimals (show_unsigned (mNumGridPts unit_square !!! 0%nat)).
Proof.
  split; [vm_compute; reflexivity|].
  split; [vm_compute; reflexivity|].
  split; [vm_compute; discriminate|].
  split; [vm_compute; discriminate|].
  intros (neg & ip & d1 & d2 & d3 & Heq & [Hne _] & _).
  change (show_unsigned (mNumGridPts unit_square !!! 0%nat)) with "3" in Heq.
  destruct neg; simpl in Heq; [discriminate|].
  destruct ip as [|c [|c' ip]]; simpl in Heq; [congruence | discriminate | discriminate].
Qed.

(** C4, amended: for each of the three dimensions the name is, inside
    [CachedRandomFields/], the dimension tag followed by the fields in the
    order lower corner, upper corner, grid sizes, periodicity flags, number of
    eigenvalues, length scale, separated by underscores and ended by [.rfg];
    a finite double field has exactly three decimals, an unsigned field is a
    plain decimal integer and a periodicity flag is [0] or [1]. *)
Theorem GetFilenameFromParams_format SPACE_DIM this :
  (1 <= SPACE_DIM <= 3)%nat ->
  GetFilenameFromParams SPACE_DIM this =
    Some ("CachedRandomFields/" +:+ dimension_tag SPACE_DIM +:+
          String.concat "_"
            (per_axis SPACE_DIM show_double (fun d => mLowerCorner this !!! d) ++
             per_axis SPACE_DIM show_double (fun d => mUpperCorner this !!! d) ++
             per_axis SPACE_DIM show_unsigned (fun d => mNumGridPts this !!! d) ++
             per_axis SPACE_DIM show_bool (fun d => mPeriodicity this !!! d) ++
             [show_unsigned (mNumEigenvals this); show_double (mLengthScale this)])
          +:+ ".rfg")
  /\ (dimension_tag 1 = "x_" /\ dimension_tag 2 = "xy_" /\ dimension_tag 3 = "xyz_")
  /\ (forall b : double, is_finite_double b -> three_decimals (show_double b))
  /\ (forall u : unsigned, plain_integer (show_unsigned u))
  /\ (forall f : bool, show_bool f = "0" \/ show_bool f = "1").
Proof.
  intros H. split; [apply (GetFilenameFromParams_fields SPACE_DIM this H)|].
  split; [repeat split|].
  split; [apply show_double_three_decimals|].
  split; [apply show_unsigned_plain | apply show_bool_flag].
Qed.

Lemma GetFilenameFromParams_format_witness :
  GetFilenameFromParams 2 unit_square =
    Some ("CachedRandomFields/" +:+ dimension_tag 2 +:+
          String.concat "_"
            (per_axis 2 show_double (fun d => mLowerCorner unit_square !!! d) ++
             per_axis 2 show_double (fun d => mUpperCorner unit_square !!! d) ++
             per_axis 2 show_unsigned (fun d => mNumGridPts unit_square !!! d) ++
             per_axis 2 show_bool (fun d => mPeriodicity unit_square !!! d) ++
             [show_unsigned (mNumEigenvals unit_square);
              show_double (mLengthScale unit_square)])
          +:+ ".rfg").
Proof.
  apply (GetFilenameFromParams_format 2 unit_square). lia.
Defined.

Lemma fixed3_repr_show (a b : double) :
  fixed3_repr a = fixed3_repr b -> show_double a = show_double b.
Proof.
  unfold fixed3_repr, show_double. intros H.
  pose proof (f_equal fst H) as H1. pose proof (f_equal snd H) as H2.
  cbn [fst snd] in H1, H2. rewrite H1, H2. reflexivity.
Qed.

Lemma lookup_total_fixed3 (l1 l2 : list double) d :
  Forall2 (fun a b => fixed3_repr a = fixed3_repr b) l1 l2 ->
  show_double (l1 !!! d) = show_double (l2 !!! d).
Proof.
  intros H. revert d.
  induction H as [|a b l1 l2 Hab _ IH]; intros d; [reflexivity|].
  destruct d as [|d]; [|apply IH].
  change ((a :: l1) !!! 0%nat) with a. change ((b :: l2) !!! 0%nat) with b.
  apply fixed3_repr_show, Hab.
Qed.

(** C8: the name depends on the six parameters only, so the same parameters
    always give the same name; and two parameter sets that agree on every
    field once rounded to three decimals give the same name. *)
Theorem GetFilenameFromParams_collision SPACE_DIM :
  (forall g1 g2, same_params g1 g2 ->
     GetFilenameFromParams SPACE_DIM g1 = GetFilenameFromParams SPACE_DIM g2)
  /\
  (forall g1 g2, same_params_at_3_decimals g1 g2 ->
     GetFilenameFromParams SPACE_DIM g1 = GetFilenameFromParams SPACE_DIM g2).
Proof.
  assert (Hc : forall g1 g2, same_params_at_3_decimals g1 g2 ->
     GetFilenameFromParams SPACE_DIM g1 = GetFilenameFromParams SPACE_DIM g2).
  { intros g1 g2 (Hlo & Hup & Hn & Hp & He & Hl).
    unfold GetFilenameFromParams.
    rewrite Hn, Hp, He.
    rewrite (fixed3_repr_show _ _ Hl).
    rewrite !(lookup_total_fixed3 _ _ _ Hlo), !(lookup_total_fixed3 _ _ _ Hup).
    reflexivity. }
  split; [|exact Hc].
  intros g1 g2 (Hlo & Hup & Hn & Hp & He & Hl). apply Hc.
  unfold same_params_at_3_decimals. rewrite Hlo, Hup, Hl.
  repeat split; try assumption;
    apply Forall_Forall2_diag, Forall_forall; reflexivity.
Qed.

(** The sign is part of the representation: -0.0001 is written [-0.000],
    0.0001 is written [0.000]. *)
Example show_double_keeps_sign :
  show_double 0xBF1A36E2EB1C432D = "-0.000" /\
  show_double 0x3F1A36E2EB1C432D = "0.000" /\
  fixed3_repr 0xBF1A36E2EB1C432D <> fixed3_repr 0x3F1A36E2EB1C432D.
Proof. repeat split. vm_compute. discriminate. Qed.

Lemma GetFilenameFromParams_collision_witness :
  same_params_at_3_decimals unit_square unit_square_0_5004 /\
  mLengthScale unit_square <> mLengthScale unit_square_0_5004 /\
  GetFilenameFromParams 2 unit_square = GetFilenameFromParams 2 unit_square_0_5004.
Proof.
  assert (H : same_params_at_3_decimals unit_square unit_square_0_5004).
  { unfold same_params_at_3_decimals; simpl.
    repeat split; try reflexivity; repeat constructor. }
  split; [exact H|]. split; [discriminate|].
  apply (proj2 (GetFilenameFromParams_collision 2) unit_square unit_square_0_5004 H).
Defined.

(** ** Object representations *)

(** [lia] once the names of the machine types are unfolded. *)
Ltac zlia := unfold VectorXd, double, unsigned in *; lia.

Lemma length_encode_array sz l :
  length (encode_array sz l) = (sz * length l)%nat.
Proof.
  unfold encode_array.
  induction l as [|z l IH]; simpl; [lia|].
  rewrite length_app, length_le_split, IH. lia.
Qed.

Lemma length_decode_array sz n : forall mem,
  length (decode_array sz n mem) = n.
Proof. induction n as [|n IH]; intros mem; simpl; [reflexivity | now rewrite IH]. Qed.

(** Decoding looks at the first [sz * n] bytes only. *)
Lemma decode_array_prefix sz n : forall m1 m2,
  take (sz * n) m1 = take (sz * n) m2 ->
  decode_array sz n m1 = decode_array sz n m2.
Proof.
  induction n as [|n IH]; intros m1 m2 H; simpl; [reflexivity|].
  replace (sz * S n)%nat with (sz + sz * n)%nat in H by lia.
  assert (H1 : take sz m1 = take sz m2).
  { apply (f_equal (take sz)) in H. rewrite !take_take in H.
    rewrite !Nat.min_l in H by lia. exact H. }
  assert (H2 : take (sz * n) (drop sz m1) = take (sz * n) (drop sz m2)).
  { apply (f_equal (drop sz)) in H. rewrite !take_drop_commute. exact H. }
  rewrite H1, (IH _ _ H2). reflexivity.
Qed.

(** The first [k] of [n] decoded objects. *)
Lemma take_decode_array sz k : forall n mem,
  (k <= n)%nat ->
  take k (decode_array sz n mem) = decode_array sz k mem.
Proof.
  induction k as [|k IH]; intros n mem H; [apply take_0|].
  destruct n as [|n]; [lia|]. simpl. rewrite IH by lia. reflexivity.
Qed.

Lemma decode_encode_array sz l rest :
  Forall (in_range sz) l ->
  decode_array sz (length l) (encode_array sz l ++ rest) = l.
Proof.
  unfold encode_array.
  induction 1 as [|z l Hz _ IH]; simpl; [reflexivity|].
  rewrite <- app_assoc.
  rewrite take_app_length' by (symmetry; apply length_le_split).
  rewrite drop_app_length' by (symmetry; apply length_le_split).
  rewrite le_combine_split, IH.
  rewrite Z.mod_small by exact Hz. reflexivity.
Qed.

Lemma decode_encode_array_exact sz l :
  Forall (in_range sz) l ->
  decode_array sz (length l) (encode_array sz l) = l.
Proof.
  intros H. rewrite <- (app_nil_r (encode_array sz l)).
  apply decode_encode_array, H.
Qed.

Lemma bool_of_Z_of_bool l : map bool_of_Z (map Z_of_bool l) = l.
Proof.
  induction l as [|b l IH]; [reflexivity|].
  cbn [map]. rewrite IH. destruct b; reflexivity.
Qed.

Lemma Z_of_bool_in_range l : Forall (in_range 1) (map Z_of_bool l).
Proof.
  induction l as [|[] l IH]; constructor; try assumption;
    unfold in_range; simpl; lia.
Qed.

Lemma load_store_same off bs mem :
  (off + length bs <= length mem)%nat ->
  load off (length bs) (store off bs mem) = bs.
Proof.
  intros H. unfold load, store.
  rewrite drop_app_length' by (rewrite length_take; lia).
  rewrite take_app_length. reflexivity.
Qed.

Lemma length_store off bs mem :
  (off + length bs <= length mem)%nat ->
  length (store off bs mem) = length mem.
Proof.
  intros H. unfold store.
  rewrite !length_app, length_take, length_drop. lia.
Qed.

(** A store leaves what lies before it. *)
Lemma load_store_before off len off' bs mem :
  (off + len <= off')%nat -> (off' <= length mem)%nat ->
  load off len (store off' bs mem) = load off len mem.
Proof.
  intros H1 H2. unfold load, store.
  rewrite !take_drop_commute.
  rewrite take_app_le by (rewrite length_take; lia).
  rewrite take_take. rewrite Nat.min_l by lia. reflexivity.
Qed.

(** A read that finds all its bytes replaces the whole object. *)
Lemma read_over_full dst count src :
  length dst = count -> (count <= length src)%nat ->
  read_over dst count src = take count src.
Proof.
  intros Hd Hs. unfold read_over; cbv zeta.
  rewrite length_take, Nat.min_l by lia.
  rewrite drop_ge by lia. apply app_nil_r.
Qed.

Lemma length_read_over dst count src :
  (count <= length dst)%nat -> length (read_over dst count src) = length dst.
Proof.
  intros H. unfold read_over; cbv zeta.
  rewrite length_app, length_drop, !length_take. lia.
Qed.

(** The bytes a read finds are at the start of the object afterwards. *)
Lemma take_read_over dst count src :
  (count <= length src)%nat ->
  take count (read_over dst count src) = take count src.
Proof.
  intros H. unfold read_over; cbv zeta.
  rewrite take_app_length' by (rewrite length_take; lia). reflexivity.
Qed.

(** ** Running the codec *)

Lemma run_bind {A B} (m : IO A) (f : A -> IO B) w a w' :
  m w = (Ok a, w') -> (m ≫= f) w = f a w'.
Proof. intros H. unfold mbind, IO_bind. rewrite H. reflexivity. Qed.

Lemma ifstream_open_found path w content :
  can_open_in w path = Some content ->
  ifstream_open path w =
    (Ok {| in_open := true; in_rest := content; in_good := true |},
     add_event (EvOpenIn path true) w).
Proof. intros H. unfold ifstream_open. rewrite H. reflexivity. Qed.

Lemma ifstream_open_missing path w :
  can_open_in w path = None ->
  ifstream_open path w =
    (Ok {| in_open := false; in_rest := []; in_good := false |},
     add_event (EvOpenIn path false) w).
Proof. intros H. unfold ifstream_open. rewrite H. reflexivity. Qed.

Lemma ifstream_read_run s dst count w :
  ifstream_read s dst count w =
    (Ok (if in_good s
         then (read_over dst (Z.to_nat count) (in_rest s),
               {| in_open := in_open s;
                  in_rest := drop (Z.to_nat count) (in_rest s);
                  in_good := (Z.to_nat count <=? length (in_rest s))%nat |})
         else (dst, s)),
     add_event (EvRead count) w).
Proof. unfold ifstream_read. destruct (in_good s); reflexivity. Qed.

Lemma resize_storage_run old n w :
  exists mem w',
    resize_storage old n w = (Ok mem, w') /\
    length mem = (8 * Z.to_nat n)%nat /\
    same_world w w'.
Proof.
  unfold resize_storage.
  destruct (Z.eqb_spec (Z.of_nat (length old)) n) as [E|E].
  - exists (encode_array 8 old), w. split; [reflexivity|].
    split; [rewrite length_encode_array; subst n; rewrite Nat2Z.id; reflexivity | repeat split].
  - exists (junk w (8 * Z.to_nat n)), (bump (8 * Z.to_nat n) w).
    split; [reflexivity|].
    split; [unfold junk; rewrite length_map, length_seq; reflexivity | repeat split].
Qed.

Lemma length_junk w n : length (junk w n) = n.
Proof. unfold junk. rewrite length_map, length_seq. reflexivity. Qed.

(** What [LoadFromCache] does once the file is open. *)
Lemma LoadFromCache_opened N this path w content :
  can_open_in w path = Some content ->
  exists eigenvals eigenvecs w',
    let header := read_over (junk w (sizeof_header N)) (sizeof_header N) content in
    let ne := header_mNumEigenvals N header in
    let tot := total_gridpts_of (header_mNumGridPts N header) in
    LoadFromCache N this path w =
      (Ok (object_of_record N header eigenvals eigenvecs), w') /\
    files w' = files w /\ readable w' = readable w /\ writable w' = writable w /\
    test_output w' = test_output w /\
    trace w' = trace w ++ load_events N path ne tot /\
    ((sizeof_header N + Z.to_nat (ne * 8) <= length content)%nat ->
       take (Z.to_nat (ne * 8)) eigenvals =
       take (Z.to_nat (ne * 8)) (drop (sizeof_header N) content)) /\
    ((sizeof_header N + Z.to_nat (ne * 8) + Z.to_nat (umul tot ne * 8)
        <= length content)%nat ->
       take (Z.to_nat (umul tot ne * 8)) eigenvecs =
       take (Z.to_nat (umul tot ne * 8))
         (drop (sizeof_header N + Z.to_nat (ne * 8)) content)).
Proof.
  intros Hopen.
  set (hs := sizeof_header N).
  set (header := read_over (junk w hs) hs content).
  set (ne := header_mNumEigenvals N header).
  set (tot := total_gridpts_of (header_mNumGridPts N header)).
  unfold LoadFromCache.
  erewrite run_bind by reflexivity.
  erewrite run_bind
    by (apply ifstream_open_found;
        change (can_open_in (bump _ w) path) with (can_open_in w path); exact Hopen).
  cbn [in_open].
  erewrite run_bind by reflexivity.
  erewrite run_bind by apply ifstream_read_run.
  cbn [in_good in_rest in_open]. rewrite Nat2Z.id.
  fold hs. fold header. fold ne. fold tot.
  match goal with |- context [resize_storage ?o ?n ≫= _] =>
    destruct (resize_storage_run o n
                (add_event (EvRead (Z.of_nat hs))
                   (add_event (EvOpenIn path true) (bump hs w))))
      as (ev0 & w1 & Hr1 & Hl1 & Hw1) end.
  erewrite run_bind by exact Hr1.
  match goal with |- context [resize_storage ?o ?n ≫= _] =>
    destruct (resize_storage_run o n w1) as (ec0 & w2 & Hr2 & Hl2 & Hw2) end.
  erewrite run_bind by exact Hr2.
  erewrite run_bind by apply ifstream_read_run.
  cbn [in_good in_rest in_open].
  destruct (Nat.leb_spec hs (length content)) as [G1|G1].
  - (* the header was read whole *)
    erewrite run_bind by apply ifstream_read_run.
    cbn [in_good in_rest in_open].
    destruct (Nat.leb_spec (Z.to_nat (ne * 8)) (length (drop hs content))) as [G2|G2].
    + erewrite run_bind by reflexivity.
      eexists _, _, _. split; [reflexivity|].
      destruct Hw1 as (F1 & R1 & W1 & _ & T1 & L1), Hw2 as (F2 & R2 & W2 & _ & T2 & L2).
      cbn [add_event files readable writable test_output trace].
      rewrite F2, F1, R2, R1, W2, W1, T2, T1, L2, L1.
      cbn [add_event bump files readable writable test_output trace].
      repeat split.
      * unfold load_events. rewrite <- !app_assoc. reflexivity.
      * intros _. apply take_read_over. exact G2.
      * intros H. rewrite drop_drop. apply take_read_over.
        rewrite length_drop. lia.
    + erewrite run_bind by reflexivity.
      eexists _, _, _. split; [reflexivity|].
      destruct Hw1 as (F1 & R1 & W1 & _ & T1 & L1), Hw2 as (F2 & R2 & W2 & _ & T2 & L2).
      cbn [add_event files readable writable test_output trace].
      rewrite F2, F1, R2, R1, W2, W1, T2, T1, L2, L1.
      cbn [add_event bump files readable writable test_output trace].
      rewrite length_drop in G2.
      repeat split.
      * unfold load_events. rewrite <- !app_assoc. reflexivity.
      * intros H. lia.
      * intros H. lia.
  - (* the file ended inside the header *)
    erewrite run_bind by apply ifstream_read_run.
    cbn [in_good in_rest in_open].
    erewrite run_bind by reflexivity.
    eexists _, _, _. split; [reflexivity|].
    destruct Hw1 as (F1 & R1 & W1 & _ & T1 & L1), Hw2 as (F2 & R2 & W2 & _ & T2 & L2).
    cbn [add_event files readable writable test_output trace].
    rewrite F2, F1, R2, R1, W2, W1, T2, T1, L2, L1.
    cbn [add_event bump files readable writable test_output trace].
    repeat split.
    + unfold load_events. rewrite <- !app_assoc. reflexivity.
    + intros H. lia.
    + intros H. lia.
Qed.

(** What [LoadFromCache] does when the file cannot be opened. *)
Lemma LoadFromCache_not_opened N this path w :
  can_open_in w path = None ->
  LoadFromCache N this path w =
    (Throw "Assertion tripped: input_file.is_open()",
     add_event (EvOpenIn path false) (bump (sizeof_header N) w)).
Proof.
  intros Hopen. unfold LoadFromCache.
  erewrite run_bind by reflexivity.
  erewrite run_bind
    by (apply ifstream_open_missing;
        change (can_open_in (bump _ w) path) with (can_open_in w path); exact Hopen).
  reflexivity.
Qed.

Lemma ofstream_open_writable path w :
  writable w path = true ->
  ofstream_open path w =
    (Ok {| out_open := true; out_path := path |},
     put_file path [] (add_event (EvOpenOut path true) w)).
Proof. intros H. unfold ofstream_open. rewrite H. reflexivity. Qed.

Lemma ofstream_open_refused path w :
  writable w path = false ->
  ofstream_open path w =
    (Ok {| out_open := false; out_path := path |},
     add_event (EvOpenOut path false) w).
Proof. intros H. unfold ofstream_open. rewrite H. reflexivity. Qed.

Lemma ofstream_write_run path bs w :
  ofstream_write {| out_open := true; out_path := path |} bs w =
    (Ok tt, put_file path (default [] (files w !! path) ++ bs) (add_event (EvWrite bs) w)).
Proof. reflexivity. Qed.

(** What [SaveToCache] does when the file can be opened. *)
Lemma SaveToCache_opened N this w name :
  GetFilenameFromParams N this = Some name ->
  writable w (test_output w +:+ name) = true ->
  exists w',
    let path := test_output w +:+ name in
    let header := fill_header N this (junk w (sizeof_header N)) in
    SaveToCache N this w = (Ok tt, w') /\
    files w' = <[path := record_bytes N this (junk w (sizeof_header N))]> (files w) /\
    readable w' = readable w /\ writable w' = writable w /\
    test_output w' = test_output w /\
    trace w' = trace w ++
      [EvOpenOut path true; EvWrite header;
       EvWrite (encode_array 8 (mEigenvals this));
       EvWrite (encode_array 8 (m_data (mEigenvecs this)));
       EvCloseOut].
Proof.
  intros Hname Hw. unfold SaveToCache. rewrite Hname.
  erewrite run_bind by reflexivity.
  erewrite run_bind by (apply ofstream_open_writable; exact Hw).
  cbn [out_open].
  erewrite run_bind by reflexivity.
  erewrite run_bind by reflexivity.
  erewrite run_bind by apply ofstream_write_run.
  erewrite run_bind by apply ofstream_write_run.
  erewrite run_bind by apply ofstream_write_run.
  eexists. split; [reflexivity|].
  cbn [ofstream_close log add_event put_file bump files readable writable
       test_output trace snd].
  repeat split.
  - rewrite !lookup_insert_eq.
    rewrite !insert_insert_eq. unfold record_bytes, junk.
    cbn [default from_option id app heap brk relative_path put_file add_event].
    rewrite <- !app_assoc. reflexivity.
  - rewrite <- !app_assoc. reflexivity.
Qed.

(** What [SaveToCache] does when the file cannot be opened. *)
Lemma SaveToCache_not_opened N this w name :
  GetFilenameFromParams N this = Some name ->
  writable w (test_output w +:+ name) = false ->
  SaveToCache N this w =
    (Throw "Assertion tripped: output_file.is_open()",
     add_event (EvOpenOut (test_output w +:+ name) false) w).
Proof.
  intros Hname Hw. unfold SaveToCache. rewrite Hname.
  erewrite run_bind by reflexivity.
  erewrite run_bind by (apply ofstream_open_refused; exact Hw).
  reflexivity.
Qed.

(** The two ways through the constructor. *)
Lemma constructor_cold_run N lo up grid per ne ls w name :
  GetFilenameFromParams N (initial_object lo up grid per ne ls) = Some name ->
  files w !! (test_output w +:+ name) = None ->
  constructor N lo up grid per ne ls w = (Ok (initial_object lo up grid per ne ls), w).
Proof.
  intros Hname Hfile. unfold constructor. rewrite Hname.
  unfold mbind, IO_bind, Exists. cbn [relative_path].
  rewrite Hfile. rewrite bool_decide_eq_false_2 by (intros [x Hx]; discriminate).
  reflexivity.
Qed.

Lemma constructor_warm_run N lo up grid per ne ls w name content :
  GetFilenameFromParams N (initial_object lo up grid per ne ls) = Some name ->
  files w !! (test_output w +:+ name) = Some content ->
  constructor N lo up grid per ne ls w =
    LoadFromCache N (initial_object lo up grid per ne ls) (test_output w +:+ name) w.
Proof.
  intros Hname Hfile. unfold constructor. rewrite Hname.
  erewrite run_bind.
  2:{ unfold Exists. cbn [relative_path]. rewrite Hfile.
      rewrite bool_decide_eq_true_2 by eauto. reflexivity. }
  cbv beta iota.
  erewrite run_bind by reflexivity. reflexivity.
Qed.

(** ** The header object *)

Lemma load_store_same' off len bs mem :
  len = length bs -> (off + len <= length mem)%nat ->
  load off len (store off bs mem) = bs.
Proof. intros -> H. apply load_store_same, H. Qed.

Lemma decode_encode_array' sz n l :
  n = length l -> Forall (in_range sz) l ->
  decode_array sz n (encode_array sz l) = l.
Proof. intros -> H. apply decode_encode_array_exact, H. Qed.

Ltac len :=
  unfold double, unsigned, VectorXd in *;
  repeat first
    [ rewrite length_encode_array
    | rewrite length_le_split
    | rewrite length_map
    | rewrite length_store by len ];
  lia.

Ltac eval_layout N :=
  let go t := (let v := eval vm_compute in t in change t with v in *) in
  go (off_mUpperCorner N); go (off_mNumGridPts N); go (off_mPeriodicity N);
  go (off_mNumEigenvals N); go (off_mLengthScale N); go (sizeof_header N);
  change off_mLowerCorner with 0%nat in *.

Lemma le_combine_le_split_in_range sz z :
  in_range sz z -> le_combine (le_split sz z) = z.
Proof.
  intros H. rewrite le_combine_split. apply Z.mod_small. exact H.
Qed.

(** Reading the members of a filled header gives back what was assigned. *)
Lemma fill_header_fields N this header :
  (1 <= N <= 3)%nat ->
  length header = sizeof_header N ->
  well_typed N this ->
  length (fill_header N this header) = sizeof_header N /\
  header_mLowerCorner N (fill_header N this header) = mLowerCorner this /\
  header_mUpperCorner N (fill_header N this header) = mUpperCorner this /\
  header_mNumGridPts N (fill_header N this header) = mNumGridPts this /\
  header_mPeriodicity N (fill_header N this header) = mPeriodicity this /\
  header_mNumEigenvals N (fill_header N this header) = mNumEigenvals this /\
  header_mLengthScale N (fill_header N this header) = mLengthScale this.
Proof.
  intros HN Hh (Llo & Lup & Lgr & Lpe & Rlo & Rup & Rgr & Rne & Rls & _ & _).
  assert (Lpe' : length (map Z_of_bool (mPeriodicity this)) = N)
    by (rewrite length_map; exact Lpe).
  unfold header_mLowerCorner, header_mUpperCorner, header_mNumGridPts,
    header_mPeriodicity, header_mNumEigenvals, header_mLengthScale, fill_header.
  assert (N = 1 \/ N = 2 \/ N = 3)%nat as [->|[->| ->]] by lia.
  all: eval_layout 1%nat; eval_layout 2%nat; eval_layout 3%nat.
  all: repeat split.
  all: try (rewrite !length_store by len; exact Hh).
  all: rewrite ?load_store_before by len.
  all: rewrite load_store_same' by len.
  all: try (apply decode_encode_array'; [len | assumption]).
  all: try (apply le_combine_le_split_in_range; assumption).
  all: rewrite decode_encode_array' by (try len; apply Z_of_bool_in_range).
  all: apply bool_of_Z_of_bool.
Qed.

(** ** Loading a record *)

Lemma header_mNumEigenvals_nonneg N header : 0 <= header_mNumEigenvals N header.
Proof. unfold header_mNumEigenvals. apply le_combine_bound. Qed.

Lemma umul_range a b : 0 <= umul a b < 2 ^ 32.
Proof. unfold umul. apply Z.mod_pos_bound. lia. Qed.

Lemma total_gridpts_of_range l : 0 <= total_gridpts_of l < 2 ^ 32.
Proof.
  unfold total_gridpts_of.
  assert (H : forall acc, 0 <= acc < 2 ^ 32 -> 0 <= fold_left umul l acc < 2 ^ 32).
  { induction l as [|x l IH]; intros acc Hacc; simpl; [exact Hacc|].
    apply IH, umul_range. }
  apply H. lia.
Qed.

(** The unsigned product of the grid sizes is their product modulo [2^32]. *)
Lemma total_gridpts_of_mod l :
  total_gridpts_of l = fold_right Z.mul 1 l mod 2 ^ 32.
Proof.
  unfold total_gridpts_of.
  assert (H : forall acc,
             fold_left umul l (acc mod 2 ^ 32) =
             (acc * fold_right Z.mul 1 l) mod 2 ^ 32).
  { induction l as [|x l IH]; intros acc; simpl.
    - rewrite Z.mul_1_r. reflexivity.
    - unfold umul at 2. rewrite IH.
      rewrite <- Z.mul_assoc, Z.mul_mod_idemp_l by lia. reflexivity. }
  specialize (H 1). rewrite Z.mul_1_l in H. exact H.
Qed.

Lemma umul_no_wrap a b : 0 <= a * b < 2 ^ 32 -> umul a b = a * b.
Proof. intros H. unfold umul. apply Z.mod_small, H. Qed.

Lemma umul_le a b : 0 <= a * b -> umul a b <= a * b.
Proof. intros H. unfold umul. apply Z.mod_le; lia. Qed.

(** Loading the bytes [SaveToCache] writes for a well-typed object whose
    eigen data are sized by its parameters gives that object. *)
Lemma LoadFromCache_record N this other path w header :
  (1 <= N <= 3)%nat ->
  well_typed N this ->
  sized_by_params this ->
  length header = sizeof_header N ->
  can_open_in w path = Some (record_bytes N this header) ->
  exists w', LoadFromCache N other path w = (Ok this, w') /\ files w' = files w.
Proof.
  intros HN Hty (Sev & Srow & Scol & Sdat & Sfit) Hh Hopen.
  destruct (fill_header_fields N this header HN Hh Hty)
    as (Lf & Flo & Fup & Fgr & Fpe & Fne & Fls).
  destruct Hty as (_ & _ & _ & _ & _ & _ & _ & Rne & _ & Rev & Rdat).
  destruct (LoadFromCache_opened N other path w _ Hopen)
    as (evals & evecs & w' & Hrun & Hfiles & _ & _ & _ & _ & Hev & Hec).
  cbv zeta in Hrun, Hev, Hec.
  assert (Hhdr : read_over (junk w (sizeof_header N)) (sizeof_header N)
                   (record_bytes N this header) = fill_header N this header).
  { rewrite read_over_full.
    - unfold record_bytes. rewrite take_app_length' by (symmetry; exact Lf). reflexivity.
    - apply length_junk.
    - unfold record_bytes. rewrite length_app. lia. }
  rewrite Hhdr in Hrun, Hev, Hec. rewrite Fne in Hev. rewrite Fgr, Fne in Hec.
  assert (Hdrop : drop (sizeof_header N) (record_bytes N this header) =
                  encode_array 8 (mEigenvals this) ++
                  encode_array 8 (m_data (mEigenvecs this))).
  { unfold record_bytes. rewrite drop_app_length' by (symmetry; exact Lf). reflexivity. }
  assert (Hne8 : Z.to_nat (mNumEigenvals this * 8) = (8 * length (mEigenvals this))%nat)
    by zlia.
  assert (Hnowrap : umul (total_gridpts_of (mNumGridPts this)) (mNumEigenvals this) =
                    Z.of_nat (length (m_data (mEigenvecs this)))).
  { symmetry. exact Sfit. }
  rewrite Hnowrap, Hne8 in *.
  assert (Hlen : length (record_bytes N this header) =
                 (sizeof_header N + 8 * length (mEigenvals this) +
                  8 * length (m_data (mEigenvecs this)))%nat).
  { unfold record_bytes. rewrite !length_app, !length_encode_array, Lf. zlia. }
  exists w'. split; [|exact Hfiles].
  rewrite Hrun. apply (f_equal (fun g => (Ok g, w'))). unfold object_of_record.
  rewrite Flo, Fup, Fgr, Fpe, Fne, Fls.
  destruct this as [lo up gr pe ne ls ev [rows cols dat]].
  cbn [mLowerCorner mUpperCorner mNumGridPts mPeriodicity mNumEigenvals mLengthScale
       mEigenvals mEigenvecs m_rows m_cols m_data] in *.
  f_equal.
  - (* eigenvalues *)
    rewrite (decode_array_prefix 8 (Z.to_nat ne) evals
               (encode_array 8 ev ++ encode_array 8 dat)).
    + replace (Z.to_nat ne) with (length ev) by zlia.
      apply decode_encode_array, Rev.
    + replace (8 * Z.to_nat ne)%nat with (8 * length ev)%nat
        by zlia.
      rewrite Hev by zlia. rewrite Hdrop. reflexivity.
  - (* eigenvectors *)
    subst rows cols. f_equal.
    rewrite (decode_array_prefix 8 _ evecs (encode_array 8 dat)).
    + replace (Z.to_nat (total_gridpts_of gr * ne)) with (length dat)
        by zlia.
      apply decode_encode_array', Rdat. reflexivity.
    + replace (8 * Z.to_nat (total_gridpts_of gr * ne))%nat
        with (Z.to_nat (Z.of_nat (length dat) * 8))
        by zlia.
      rewrite Hec by zlia.
      rewrite <- drop_drop, Hdrop.
      rewrite drop_app_length' by (rewrite length_encode_array; reflexivity || lia).
      reflexivity.
Qed.

(** ** The cache round trip *)

Ltac in_range_now :=
  first
    [ apply Z.leb_le; vm_compute; reflexivity
    | apply Z.ltb_lt; vm_compute; reflexivity
    | unfold in_range; split; [apply Z.leb_le | apply Z.ltb_lt];
      vm_compute; reflexivity ].

Lemma cached_axis_well_typed : well_typed 1 cached_axis.
Proof.
  unfold well_typed, cached_axis; cbn.
  repeat split; try reflexivity;
    repeat (apply List.Forall_cons; [in_range_now|]);
    try apply List.Forall_nil; in_range_now.
Qed.

Lemma cached_axis_sized : sized_by_params cached_axis.
Proof. unfold sized_by_params, cached_axis; cbn. repeat split; reflexivity. Qed.

Lemma cached_square_well_typed : well_typed 2 cached_square.
Proof.
  unfold well_typed, cached_square; cbn.
  repeat split; try reflexivity;
    repeat (apply List.Forall_cons; [in_range_now|]);
    try apply List.Forall_nil; in_range_now.
Qed.

Lemma cached_square_sized : sized_by_params cached_square.
Proof. unfold sized_by_params, cached_square; cbn. repeat split; reflexivity. Qed.

Lemma cached_cube_well_typed : well_typed 3 cached_cube.
Proof.
  unfold well_typed, cached_cube; cbn.
  repeat split; try reflexivity;
    repeat (apply List.Forall_cons; [in_range_now|]);
    try apply List.Forall_nil; in_range_now.
Qed.

Lemma cached_cube_sized : sized_by_params cached_cube.
Proof. unfold sized_by_params, cached_cube; cbn. repeat split; reflexivity. Qed.

(** C3, as stated, fails: the sizes of the eigen data are not stored, they
    are taken from the header. The object a cold construction leaves has 4 as
    number of eigenvalues and no eigen data; its file holds the header only,
    and loading it gives 4 eigenvalues and a 9 by 4 matrix. *)
Lemma cache_round_trip_fails_when_unsized :
  well_typed 2 unit_square /\
  ~ round_trips 2 unit_square empty_world /\
  exists w1 g w2,
    SaveToCache 2 unit_square empty_world = (Ok tt, w1) /\
    LoadFromCache 2 unit_square
      "/testoutput/CachedRandomFields/xy_0.000_0.000_1.000_1.000_3_3_0_0_4_0.500.rfg"
      w1 = (Ok g, w2) /\
    mEigenvals unit_square = [] /\
    length (mEigenvals g) = 4%nat /\
    m_data (mEigenvecs unit_square) = [] /\
    length (m_data (mEigenvecs g)) = 36%nat.
Proof.
  split.
  { unfold well_typed, unit_square; cbn.
    repeat split; try reflexivity;
      repeat (apply List.Forall_cons; [in_range_now|]);
      try apply List.Forall_nil; in_range_now. }
  split.
  - intros Hrt.
    destruct (Hrt "CachedRandomFields/xy_0.000_0.000_1.000_1.000_3_3_0_0_4_0.500.rfg"
                (snd (SaveToCache 2 unit_square empty_world)))
      as (w2 & Hload); [vm_compute; reflexivity | vm_compute; reflexivity |].
    vm_compute in Hload. discriminate.
  - eexists _, _, _.
    split; [vm_compute; reflexivity|].
    split; [vm_compute; reflexivity|].
    repeat split.
Qed.

(** C3, amended: for each of the three dimensions and every well-typed object
    whose eigen data have the sizes that loading derives from the parameters
    ([numEigenvals] eigenvalues, and [totalGridPoints] rows by [numEigenvals]
    columns of [totalGridPoints * numEigenvals] matrix entries, products of
    the type [unsigned]), saving it and loading the file into any object
    gives the saved object: same parameters, same doubles bit for bit, same
    order. *)
Theorem cache_round_trip N this other w :
  (1 <= N <= 3)%nat ->
  well_typed N this ->
  sized_by_params this ->
  writable w (test_output w +:+ cache_filename N this) = true ->
  readable w (test_output w +:+ cache_filename N this) = true ->
  exists w1 w2,
    SaveToCache N this w = (Ok tt, w1) /\
    LoadFromCache N other (test_output w +:+ cache_filename N this) w1 = (Ok this, w2).
Proof.
  intros HN Hty Hsz Hwr Hrd.
  pose proof (GetFilenameFromParams_fields N this HN) as Hname.
  destruct (SaveToCache_opened N this w _ Hname Hwr)
    as (w1 & Hsave & Hfiles & Hread & _).
  cbv zeta in Hsave, Hfiles.
  destruct (LoadFromCache_record N this other
              (test_output w +:+ cache_filename N this) w1
              (junk w (sizeof_header N)) HN Hty Hsz (length_junk _ _))
    as (w2 & Hload & _).
  { unfold can_open_in. rewrite Hread, Hrd, Hfiles. apply lookup_insert_eq. }
  exists w1, w2. split; assumption.
Qed.

Lemma cache_round_trip_witness :
  (exists w1 w2,
     SaveToCache 1 cached_axis empty_world = (Ok tt, w1) /\
     LoadFromCache 1 unit_square
       (test_output empty_world +:+ cache_filename 1 cached_axis) w1 =
       (Ok cached_axis, w2)) /\
  (exists w1 w2,
     SaveToCache 2 cached_square empty_world = (Ok tt, w1) /\
     LoadFromCache 2 unit_square
       (test_output empty_world +:+ cache_filename 2 cached_square) w1 =
       (Ok cached_square, w2)) /\
  (exists w1 w2,
     SaveToCache 3 cached_cube empty_world = (Ok tt, w1) /\
     LoadFromCache 3 unit_square
       (test_output empty_world +:+ cache_filename 3 cached_cube) w1 =
       (Ok cached_cube, w2)).
Proof.
  split; [|split].
  - apply (cache_round_trip 1 cached_axis unit_square empty_world);
      [lia | exact cached_axis_well_typed | exact cached_axis_sized
      | reflexivity | reflexivity].
  - apply (cache_round_trip 2 cached_square unit_square empty_world);
      [lia | exact cached_square_well_typed | exact cached_square_sized
      | reflexivity | reflexivity].
  - apply (cache_round_trip 3 cached_cube unit_square empty_world);
      [lia | exact cached_cube_well_typed | exact cached_cube_sized
      | reflexivity | reflexivity].
Defined.

(** ** What [LoadFromCache] reads *)

(** C7: once the file is open, [LoadFromCache] reads the header, of fixed
    size, into the parameters; takes the total number of grid points as the
    product of the grid sizes read; gives the eigenvalues [numEigenvals]
    entries and the eigenvectors [totalGridPoints] rows and [numEigenvals]
    columns; and then asks the stream for [numEigenvals] doubles and for
    [totalGridPoints * numEigenvals] doubles, nothing else and in that order,
    which in a file long enough are the bytes that follow the header, one
    after the other. The two products are those of the type [unsigned], the
    products modulo [2^32]. *)
Theorem LoadFromCache_reads N this path w content :
  can_open_in w path = Some content ->
  exists g w' header,
    LoadFromCache N this path w = (Ok g, w') /\
    length header = sizeof_header N /\
    take (Nat.min (sizeof_header N) (length content)) header =
      take (sizeof_header N) content /\
    mLowerCorner g = header_mLowerCorner N header /\
    mUpperCorner g = header_mUpperCorner N header /\
    mNumGridPts g = header_mNumGridPts N header /\
    mPeriodicity g = header_mPeriodicity N header /\
    mNumEigenvals g = header_mNumEigenvals N header /\
    mLengthScale g = header_mLengthScale N header /\
    let total_gridpts := fold_left umul (mNumGridPts g) 1 in
    total_gridpts = fold_right Z.mul 1 (mNumGridPts g) mod 2 ^ 32 /\
    umul total_gridpts (mNumEigenvals g) =
      (total_gridpts * mNumEigenvals g) mod 2 ^ 32 /\
    Z.of_nat (length (mEigenvals g)) = mNumEigenvals g /\
    m_rows (mEigenvecs g) = total_gridpts /\
    m_cols (mEigenvecs g) = mNumEigenvals g /\
    Z.of_nat (length (m_data (mEigenvecs g))) = total_gridpts * mNumEigenvals g /\
    trace w' = trace w ++
      [EvOpenIn path true;
       EvRead (Z.of_nat (sizeof_header N));
       EvRead (mNumEigenvals g * 8);
       EvRead (umul total_gridpts (mNumEigenvals g) * 8);
       EvCloseIn] /\
    ((sizeof_header N + Z.to_nat (mNumEigenvals g * 8) +
        Z.to_nat (umul total_gridpts (mNumEigenvals g) * 8) <= length content)%nat ->
     mEigenvals g =
       decode_array 8 (Z.to_nat (mNumEigenvals g)) (drop (sizeof_header N) content) /\
     take (Z.to_nat (umul total_gridpts (mNumEigenvals g))) (m_data (mEigenvecs g)) =
       decode_array 8 (Z.to_nat (umul total_gridpts (mNumEigenvals g)))
         (drop (sizeof_header N + Z.to_nat (mNumEigenvals g * 8)) content)).
Proof.
  intros Hopen.
  destruct (LoadFromCache_opened N this path w content Hopen)
    as (evals & evecs & w' & Hrun & _ & _ & _ & _ & Htrace & Hev & Hec).
  cbv zeta in Hrun, Htrace, Hev, Hec.
  set (header := read_over (junk w (sizeof_header N)) (sizeof_header N) content) in *.
  set (ne := header_mNumEigenvals N header) in *.
  set (tot := total_gridpts_of (header_mNumGridPts N header)) in *.
  assert (Hne : 0 <= ne) by apply header_mNumEigenvals_nonneg.
  assert (Htot : 0 <= tot < 2 ^ 32) by apply total_gridpts_of_range.
  exists (object_of_record N header evals evecs), w', header.
  split; [exact Hrun|].
  split; [unfold header; rewrite length_read_over by (rewrite length_junk; lia);
          apply length_junk|].
  split.
  { unfold header, read_over; cbv zeta.
    rewrite take_app_length' by (rewrite length_take; reflexivity).
    reflexivity. }
  do 6 (split; [reflexivity|]).
  cbv zeta. unfold object_of_record.
  cbn [mLowerCorner mUpperCorner mNumGridPts mPeriodicity mNumEigenvals mLengthScale
       mEigenvals mEigenvecs m_rows m_cols m_data].
  fold (total_gridpts_of (header_mNumGridPts N header)). fold ne. fold tot.
  rewrite !length_decode_array.
  split; [apply total_gridpts_of_mod|]. split; [reflexivity|].
  split; [lia|]. split; [reflexivity|]. split; [reflexivity|].
  split; [nia|]. split; [exact Htrace|].
  intros Hlong. split.
  - apply decode_array_prefix.
    replace (8 * Z.to_nat ne)%nat with (Z.to_nat (ne * 8)) by lia.
    apply Hev. lia.
  - rewrite take_decode_array by (pose proof (umul_le tot ne); nia).
    apply decode_array_prefix.
    replace (8 * Z.to_nat (umul tot ne))%nat with (Z.to_nat (umul tot ne * 8)) by lia.
    apply Hec. exact Hlong.
Qed.

Lemma LoadFromCache_reads_witness :
  can_open_in warm_world cached_axis_path =
    Some (record_bytes 1 cached_axis (repeat Byte.x00 40)) /\
  exists g w', LoadFromCache 1 unit_square cached_axis_path warm_world = (Ok g, w') /\
    trace w' = [EvOpenIn cached_axis_path true; EvRead 40; EvRead 8; EvRead 16; EvCloseIn].
Proof.
  split; [reflexivity|].
  destruct (LoadFromCache_reads 1 unit_square cached_axis_path warm_world _ eq_refl)
    as (g & w' & header & Hrun & _).
  exists g, w'. split; [exact Hrun|].
  vm_compute in Hrun. injection Hrun as <- <-. reflexivity.
Defined.

(** ** Construction *)

(** C10: when no file matches the key, the constructor leaves the six
    parameters as they were passed, the eigenvalues and eigenvectors empty,
    and the outside world untouched: no file written, no stream
    operation. *)
Theorem constructor_cold_frame N lowerCorner upperCorner numGridPts periodicity
    numEigenvals lengthScale w name :
  GetFilenameFromParams N
    (initial_object lowerCorner upperCorner numGridPts periodicity
       numEigenvals lengthScale) = Some name ->
  files w !! (test_output w +:+ name) = None ->
  exists g,
    constructor N lowerCorner upperCorner numGridPts periodicity
      numEigenvals lengthScale w = (Ok g, w) /\
    mLowerCorner g = lowerCorner /\
    mUpperCorner g = upperCorner /\
    mNumGridPts g = numGridPts /\
    mPeriodicity g = periodicity /\
    mNumEigenvals g = numEigenvals /\
    mLengthScale g = lengthScale /\
    mEigenvals g = [] /\
    m_rows (mEigenvecs g) = 0 /\ m_cols (mEigenvecs g) = 0 /\
    m_data (mEigenvecs g) = [].
Proof.
  intros Hname Hfile. eexists. split.
  - apply (constructor_cold_run _ _ _ _ _ _ _ _ _ Hname Hfile).
  - repeat split.
Qed.

Lemma constructor_cold_frame_witness :
  exists g,
    constructor 2 [0; 0] [d_1_0; d_1_0] [3; 3] [false; false] 4 d_0_5 empty_world =
      (Ok g, empty_world) /\
    mNumEigenvals g = 4 /\ mEigenvals g = [] /\ m_data (mEigenvecs g) = [].
Proof.
  destruct (constructor_cold_frame 2 [0; 0] [d_1_0; d_1_0] [3; 3] [false; false] 4 d_0_5
              empty_world
              "CachedRandomFields/xy_0.000_0.000_1.000_1.000_3_3_0_0_4_0.500.rfg")
    as (g & Hrun & _ & _ & _ & _ & Hne & _ & Hev & _ & _ & Hdat).
  - vm_compute. reflexivity.
  - reflexivity.
  - exists g. repeat split; assumption.
Defined.

(** C1, as stated, fails: constructing the generator of the specification's
    example where nothing is cached returns an object without eigen data
    (4 eigenvalues were asked for) and leaves the cache file absent. *)
Lemma constructor_cold_does_not_save :
  ~ cold_construction_saves 2 [0; 0] [d_1_0; d_1_0] [3; 3] [false; false] 4 d_0_5
      empty_world /\
  exists g w',
    constructor 2 [0; 0] [d_1_0; d_1_0] [3; 3] [false; false] 4 d_0_5 empty_world =
      (Ok g, w') /\
    GetFilenameFromParams 2 g =
      Some "CachedRandomFields/xy_0.000_0.000_1.000_1.000_3_3_0_0_4_0.500.rfg" /\
    files w' !!
      "/testoutput/CachedRandomFields/xy_0.000_0.000_1.000_1.000_3_3_0_0_4_0.500.rfg"
      = None /\
    trace w' = [] /\
    mNumEigenvals g = 4 /\
    mEigenvals g = [] /\
    mEigenvecs g = empty_matrix.
Proof.
  split.
  - intros Hclaim.
    destruct (Hclaim "CachedRandomFields/xy_0.000_0.000_1.000_1.000_3_3_0_0_4_0.500.rfg")
      as (g & w' & Hrun & Hsize & _); [vm_compute; reflexivity | reflexivity |].
    vm_compute in Hrun. injection Hrun as <- <-. discriminate.
  - eexists _, _. split; [vm_compute; reflexivity|].
    split; [vm_compute; reflexivity|].
    repeat split.
Qed.

(** C1, amended: when no file matches the key, constructing a generator
    computes nothing and writes nothing, the object is returned at once with
    the outside world as it was; the cache file of the key is written when
    [SaveToCache] is called on the object, and not before. *)
Theorem constructor_cold_then_save N lowerCorner upperCorner numGridPts periodicity
    numEigenvals lengthScale w name :
  GetFilenameFromParams N
    (initial_object lowerCorner upperCorner numGridPts periodicity
       numEigenvals lengthScale) = Some name ->
  files w !! (test_output w +:+ name) = None ->
  writable w (test_output w +:+ name) = true ->
  exists g w',
    constructor N lowerCorner upperCorner numGridPts periodicity
      numEigenvals lengthScale w = (Ok g, w) /\
    files w !! (test_output w +:+ name) = None /\
    SaveToCache N g w = (Ok tt, w') /\
    files w' !! (test_output w +:+ name) =
      Some (record_bytes N g (junk w (sizeof_header N))).
Proof.
  intros Hname Hfile Hwr.
  destruct (SaveToCache_opened N _ w name Hname Hwr) as (w' & Hsave & Hfiles & _).
  cbv zeta in Hsave, Hfiles.
  eexists _, w'. split; [apply (constructor_cold_run _ _ _ _ _ _ _ _ _ Hname Hfile)|].
  split; [exact Hfile|]. split; [exact Hsave|].
  rewrite Hfiles. apply lookup_insert_eq.
Qed.

Lemma constructor_cold_then_save_witness :
  exists g w',
    constructor 2 [0; 0] [d_1_0; d_1_0] [3; 3] [false; false] 4 d_0_5 empty_world =
      (Ok g, empty_world) /\
    SaveToCache 2 g empty_world = (Ok tt, w').
Proof.
  destruct (constructor_cold_then_save 2 [0; 0] [d_1_0; d_1_0] [3; 3] [false; false]
              4 d_0_5 empty_world
              "CachedRandomFields/xy_0.000_0.000_1.000_1.000_3_3_0_0_4_0.500.rfg")
    as (g & w' & Hrun & _ & Hsave & _).
  - vm_compute. reflexivity.
  - reflexivity.
  - reflexivity.
  - exists g, w'. split; assumption.
Defined.

(** C2: when a file matches the key, what the constructor gives depends on
    its arguments through the key only; and when that file can be read and
    holds a whole record, the object is the one of the record: the
    parameters, the eigenvalues and the eigenvectors are those of the file,
    whatever was passed to the constructor. *)
Theorem constructor_warm_loads N lowerCorner upperCorner numGridPts periodicity
    numEigenvals lengthScale w name content :
  GetFilenameFromParams N
    (initial_object lowerCorner upperCorner numGridPts periodicity
       numEigenvals lengthScale) = Some name ->
  files w !! (test_output w +:+ name) = Some content ->
  (forall lowerCorner' upperCorner' numGridPts' periodicity' numEigenvals' lengthScale',
     GetFilenameFromParams N
       (initial_object lowerCorner' upperCorner' numGridPts' periodicity'
          numEigenvals' lengthScale') = Some name ->
     constructor N lowerCorner' upperCorner' numGridPts' periodicity'
       numEigenvals' lengthScale' w =
     constructor N lowerCorner upperCorner numGridPts periodicity
       numEigenvals lengthScale w)
  /\
  (readable w (test_output w +:+ name) = true ->
   let header := take (sizeof_header N) content in
   let ne := header_mNumEigenvals N header in
   let tot := total_gridpts_of (header_mNumGridPts N header) in
   tot * ne < 2 ^ 32 ->
   (sizeof_header N + Z.to_nat (ne * 8) + Z.to_nat (tot * ne * 8) <= length content)%nat ->
   exists w',
     constructor N lowerCorner upperCorner numGridPts periodicity
       numEigenvals lengthScale w =
       (Ok (object_of_record N header
              (drop (sizeof_header N) content)
              (drop (sizeof_header N + Z.to_nat (ne * 8)) content)), w') /\
     files w' = files w /\
     trace w' = trace w ++ load_events N (test_output w +:+ name) ne tot).
Proof.
  intros Hname Hfile. split.
  { intros lo' up' gr' pe' ne' ls' Hname'.
    rewrite (constructor_warm_run _ _ _ _ _ _ _ _ _ _ Hname Hfile).
    rewrite (constructor_warm_run _ _ _ _ _ _ _ _ _ _ Hname' Hfile).
    reflexivity. }
  intros Hrd header ne tot Hfit Hlong.
  rewrite (constructor_warm_run _ _ _ _ _ _ _ _ _ _ Hname Hfile).
  assert (Hopen : can_open_in w (test_output w +:+ name) = Some content)
    by (unfold can_open_in; rewrite Hrd; exact Hfile).
  destruct (LoadFromCache_opened N
              (initial_object lowerCorner upperCorner numGridPts periodicity
                 numEigenvals lengthScale) _ w content Hopen)
    as (evals & evecs & w' & Hrun & Hfiles & _ & _ & _ & Htrace & Hev & Hec).
  cbv zeta in Hrun, Htrace, Hev, Hec.
  assert (Hhdr : read_over (junk w (sizeof_header N)) (sizeof_header N) content = header).
  { apply read_over_full; [apply length_junk | lia]. }
  rewrite Hhdr in Hrun, Htrace, Hev, Hec. fold ne in Hrun, Htrace, Hev, Hec.
  fold tot in Hrun, Htrace, Hec.
  assert (Hne : 0 <= ne) by apply header_mNumEigenvals_nonneg.
  assert (Htot : 0 <= tot < 2 ^ 32) by apply total_gridpts_of_range.
  assert (Hnw : umul tot ne = tot * ne) by (apply umul_no_wrap; nia).
  rewrite Hnw in Hec.
  exists w'. split; [|split; [exact Hfiles | exact Htrace]].
  rewrite Hrun. apply (f_equal (fun g => (Ok g, w'))).
  unfold object_of_record. fold ne. fold tot.
  f_equal.
  - apply decode_array_prefix.
    replace (8 * Z.to_nat ne)%nat with (Z.to_nat (ne * 8)) by lia.
    apply Hev. lia.
  - f_equal. apply decode_array_prefix.
    replace (8 * Z.to_nat (tot * ne))%nat with (Z.to_nat (tot * ne * 8)) by lia.
    apply Hec. exact Hlong.
Qed.

Lemma constructor_warm_loads_witness :
  (constructor 1 [0] [d_1_0] [2] [false] 1 d_0_5004 warm_world =
   constructor 1 [0] [d_1_0] [2] [false] 1 d_0_5 warm_world) /\
  exists w',
    constructor 1 [0] [d_1_0] [2] [false] 1 d_0_5 warm_world = (Ok cached_axis, w') /\
    mLengthScale cached_axis = d_0_5004 /\
    d_0_5004 <> d_0_5.
Proof.
  destruct (constructor_warm_loads 1 [0] [d_1_0] [2] [false] 1 d_0_5 warm_world
              "CachedRandomFields/x_0.000_1.000_2_0_1_0.500.rfg"
              (record_bytes 1 cached_axis (repeat Byte.x00 40)))
    as (Hsame & Hload).
  - vm_compute. reflexivity.
  - reflexivity.
  - split.
    + apply Hsame. vm_compute. reflexivity.
    + destruct Hload as (w' & Hrun & _).
      * reflexivity.
      * vm_compute. reflexivity.
      * vm_compute. lia.
      * exists w'. split; [|split; [reflexivity | discriminate]].
        rewrite Hrun. apply (f_equal (fun g => (Ok g, w'))). vm_compute. reflexivity.
Defined.

(** ** Failures *)

(** C9: [LoadFromCache] throws exactly when its file cannot be opened for
    reading and [SaveToCache] exactly when its file cannot be opened for
    writing; the exception reaches the caller, through the constructor too,
    after one attempt to open and with the files as they were. *)
Theorem open_failures_surface N this w :
  (forall path,
     (exists message w', LoadFromCache N this path w = (Throw message, w')) <->
     can_open_in w path = None)
  /\
  (forall path, can_open_in w path = None ->
     exists message w',
       LoadFromCache N this path w = (Throw message, w') /\
       files w' = files w /\
       trace w' = trace w ++ [EvOpenIn path false])
  /\
  (forall name, GetFilenameFromParams N this = Some name ->
     ((exists message w', SaveToCache N this w = (Throw message, w')) <->
      writable w (test_output w +:+ name) = false)
     /\
     (writable w (test_output w +:+ name) = false ->
      exists message w',
        SaveToCache N this w = (Throw message, w') /\
        files w' = files w /\
        trace w' = trace w ++ [EvOpenOut (test_output w +:+ name) false]))
  /\
  (forall lowerCorner upperCorner numGridPts periodicity numEigenvals lengthScale
          name content,
     GetFilenameFromParams N
       (initial_object lowerCorner upperCorner numGridPts periodicity
          numEigenvals lengthScale) = Some name ->
     files w !! (test_output w +:+ name) = Some content ->
     readable w (test_output w +:+ name) = false ->
     exists message w',
       constructor N lowerCorner upperCorner numGridPts periodicity
         numEigenvals lengthScale w = (Throw message, w') /\
       files w' = files w /\
       trace w' = trace w ++ [EvOpenIn (test_output w +:+ name) false]).
Proof.
  split; [|split; [|split]].
  - intros path. split.
    + intros (message & w' & Hrun).
      destruct (can_open_in w path) as [content|] eqn:Hopen; [|reflexivity].
      destruct (LoadFromCache_opened N this path w content Hopen)
        as (evals & evecs & w'' & Hok & _).
      cbv zeta in Hok. rewrite Hok in Hrun. discriminate.
    + intros Hopen. eexists _, _. apply LoadFromCache_not_opened, Hopen.
  - intros path Hopen. eexists _, _.
    split; [apply LoadFromCache_not_opened, Hopen|]. split; reflexivity.
  - intros name Hname. split; [split|].
    + intros (message & w' & Hrun).
      destruct (writable w (test_output w +:+ name)) eqn:Hwr; [|reflexivity].
      destruct (SaveToCache_opened N this w name Hname Hwr) as (w'' & Hok & _).
      rewrite Hok in Hrun. discriminate.
    + intros Hwr. eexists _, _. apply (SaveToCache_not_opened N this w name Hname Hwr).
    + intros Hwr. eexists _, _.
      split; [apply (SaveToCache_not_opened N this w name Hname Hwr)|].
      split; reflexivity.
  - intros lo up grid per ne ls name content Hname Hfile Hrd.
    rewrite (constructor_warm_run _ _ _ _ _ _ _ _ _ _ Hname Hfile).
    eexists _, _. split; [apply LoadFromCache_not_opened|split; reflexivity].
    unfold can_open_in. rewrite Hrd. reflexivity.
Qed.

Lemma open_failures_surface_witness :
  can_open_in locked_world cached_axis_path = None /\
  (exists message w',
     LoadFromCache 1 cached_axis cached_axis_path locked_world = (Throw message, w') /\
     files w' = files locked_world /\
     trace w' = trace locked_world ++ [EvOpenIn cached_axis_path false]) /\
  (exists message w',
     SaveToCache 1 cached_axis locked_world = (Throw message, w') /\
     files w' = files locked_world /\
     trace w' = trace locked_world ++
       [EvOpenOut (test_output locked_world +:+
                   "CachedRandomFields/x_0.000_1.000_2_0_1_0.500.rfg") false]).
Proof.
  pose proof (open_failures_surface 1 cached_axis locked_world) as (_ & Hload & Hsave & _).
  split; [reflexivity|]. split.
  - apply Hload. reflexivity.
  - apply (Hsave "CachedRandomFields/x_0.000_1.000_2_0_1_0.500.rfg").
    + vm_compute. reflexivity.
    + reflexivity.
Defined.

(** * Further properties of the code *)

(** ** Grid geometry *)

Lemma binary_round_aux_not_negative m e l :
  not_negative (binary_round_aux prec emax false m e l).
Proof.
  unfold binary_round_aux.
  destruct (shr_fexp prec emax m e l) as [mrs' e'].
  destruct (shr_fexp prec emax _ e' loc_Exact) as [mrs'' e''].
  destruct (shr_m mrs''); simpl; trivial.
  destruct (e'' <=? emax - prec); reflexivity.
Qed.

Lemma binary_round_not_negative m e :
  not_negative (binary_round prec emax false m e).
Proof.
  unfold binary_round.
  destruct (shl_align m e _) as [mz ez].
  apply binary_round_aux_not_negative.
Qed.

Lemma fmul_square_not_negative d : not_negative (fmul d d).
Proof.
  destruct d as [s|s| |s m e]; simpl; try apply xorb_nilpotent; trivial.
  unfold fmul, SFmul. rewrite xorb_nilpotent. apply binary_round_aux_not_negative.
Qed.

Lemma fadd_not_negative x y :
  not_negative x -> not_negative y -> not_negative (fadd x y).
Proof.
  destruct x as [sx|sx| |sx mx ex], y as [sy|sy| |sy my ey];
    intros Hx Hy; simpl in Hx, Hy; subst; try exact I; try reflexivity.
  unfold fadd, SFadd, binary_normalize, cond_Zopp.
  cbn [Z.add]. apply binary_round_not_negative.
Qed.

Lemma dist_step_not_negative this a b acc dim :
  not_negative acc -> not_negative (dist_step this a b acc dim).
Proof.
  intros H. unfold dist_step.
  apply fadd_not_negative; [exact H | apply fmul_square_not_negative].
Qed.

Lemma dist_loop_not_negative this a b n : forall from acc,
  not_negative acc -> not_negative (dist_loop this a b n from acc).
Proof.
  induction n as [|n IH]; intros from acc H; cbn [dist_loop]; [exact H|].
  apply IH, dist_step_not_negative, H.
Qed.

Lemma not_negative_flt_zero x : not_negative x -> flt x (S754_zero false) = false.
Proof. destruct x as [s|s| |s m e]; simpl; intros H; subst; reflexivity. Qed.

(** X1: whatever the points and the domain, the squared distance is never
    below zero and never [-0.0]: it is a NaN or its sign bit is clear. *)
Theorem GetSquaredDistAtoB_not_negative SPACE_DIM this (a b : list double) :
  not_negative (GetSquaredDistAtoB SPACE_DIM this a b) /\
  flt (GetSquaredDistAtoB SPACE_DIM this a b) (S754_zero false) = false /\
  GetSquaredDistAtoB SPACE_DIM this a b <> S754_zero true.
Proof.
  assert (H : not_negative (GetSquaredDistAtoB SPACE_DIM this a b))
    by (apply dist_loop_not_negative; reflexivity).
  split; [exact H|]. split; [apply not_negative_flt_zero, H|].
  intros E. rewrite E in H. discriminate H.
Qed.

(** A finite double minus itself is [+0.0]. *)
Lemma fsub_diag x : is_finite x -> fsub x x = S754_zero false.
Proof.
  destruct x as [[]|s| |s m e]; simpl; intros H; try contradiction; try reflexivity.
  unfold fsub, SFsub. rewrite Z.sub_diag. reflexivity.
Qed.

Lemma dist_step_diag this a dim :
  is_finite (dval (a !!! dim)) ->
  (mPeriodicity this !!! dim = true -> flt (spec_width this dim) (S754_zero false) = false) ->
  dist_step this a a (S754_zero false) dim = S754_zero false.
Proof.
  intros Hfin Hwidth. unfold dist_step.
  rewrite (fsub_diag _ Hfin). cbn [fabs SFabs].
  destruct (mPeriodicity this !!! dim) eqn:Hper; [|reflexivity].
  fold (spec_width this dim). rewrite fsub_zero_r.
  unfold std_min. rewrite (Hwidth eq_refl). reflexivity.
Qed.

Lemma dist_loop_diag this a n : forall from,
  (forall dim, (from <= dim < from + n)%nat ->
     is_finite (dval (a !!! dim)) /\
     (mPeriodicity this !!! dim = true ->
      flt (spec_width this dim) (S754_zero false) = false)) ->
  dist_loop this a a n from (S754_zero false) = S754_zero false.
Proof.
  induction n as [|n IH]; intros from H; cbn [dist_loop]; [reflexivity|].
  destruct (H from ltac:(lia)) as [Hfin Hwidth].
  rewrite (dist_step_diag this a from Hfin Hwidth).
  apply IH. intros dim Hdim. apply H. lia.
Qed.

(** X2: a point with finite coordinates is at squared distance [+0.0] from
    itself, provided no periodic axis has a negative width. *)
Theorem GetSquaredDistAtoB_self SPACE_DIM this (a : list double) :
  (forall dim, (dim < SPACE_DIM)%nat -> is_finite (dval (a !!! dim))) ->
  (forall dim, (dim < SPACE_DIM)%nat -> mPeriodicity this !!! dim = true ->
     flt (fsub (dval (mUpperCorner this !!! dim)) (dval (mLowerCorner this !!! dim)))
         (S754_zero false) = false) ->
  GetSquaredDistAtoB SPACE_DIM this a a = S754_zero false.
Proof.
  intros Hfin Hwidth. unfold GetSquaredDistAtoB.
  apply dist_loop_diag. intros dim Hdim. split.
  - apply Hfin. lia.
  - apply Hwidth. lia.
Qed.

Lemma GetSquaredDistAtoB_self_witness :
  GetSquaredDistAtoB 1 periodic_unit_axis [d_0_75] [d_0_75] = S754_zero false.
Proof.
  apply (GetSquaredDistAtoB_self 1 periodic_unit_axis [d_0_75]).
  - intros [|dim] Hdim; [exact I | lia].
  - intros [|dim] Hdim _; [reflexivity | lia].
Defined.

(** X3: on one periodic axis whose upper corner lies below its lower corner,
    a finite point is at squared distance [width * width] from itself: the
    negative width is the smaller of the two candidates. *)
Theorem GetSquaredDistAtoB_self_negative_width this (a : double) :
  is_finite (dval a) ->
  mPeriodicity this !!! 0%nat = true ->
  let width := fsub (dval (mUpperCorner this !!! 0%nat))
                    (dval (mLowerCorner this !!! 0%nat)) in
  flt width (S754_zero false) = true ->
  GetSquaredDistAtoB 1 this [a] [a] = fmul width width.
Proof.
  intros Hfin Hper width Hneg.
  unfold GetSquaredDistAtoB. cbn [dist_loop]. unfold dist_step. rewrite Hper.
  change ([a] !!! 0%nat) with a.
  rewrite (fsub_diag _ Hfin). cbn [fabs SFabs].
  fold width. rewrite fsub_zero_r. unfold std_min. rewrite Hneg.
  apply fadd_zero_square.
Qed.

Lemma GetSquaredDistAtoB_self_negative_width_witness :
  GetSquaredDistAtoB 1 reversed_unit_axis [d_0_25] [d_0_25] = dval d_1_0.
Proof.
  rewrite (GetSquaredDistAtoB_self_negative_width reversed_unit_axis d_0_25);
    [reflexivity | exact I | reflexivity | reflexivity].
Defined.

(** A NaN goes through every operation of the loop body. *)
Lemma fsub_nan_l y : fsub S754_nan y = S754_nan.
Proof. reflexivity. Qed.

Lemma fsub_nan_r x : fsub x S754_nan = S754_nan.
Proof. destruct x; reflexivity. Qed.

Lemma fadd_nan_r x : fadd x S754_nan = S754_nan.
Proof. destruct x; reflexivity. Qed.

Lemma dist_step_nan_acc this a b dim : dist_step this a b S754_nan dim = S754_nan.
Proof. reflexivity. Qed.

Lemma dist_loop_nan_acc this a b n : forall from,
  dist_loop this a b n from S754_nan = S754_nan.
Proof.
  induction n as [|n IH]; intros from; cbn [dist_loop]; [reflexivity|].
  rewrite dist_step_nan_acc. apply IH.
Qed.

Lemma dist_step_nan_coordinate this a b acc dim :
  dval (a !!! dim) = S754_nan \/ dval (b !!! dim) = S754_nan ->
  dist_step this a b acc dim = S754_nan.
Proof.
  intros H. unfold dist_step.
  assert (E : fsub (dval (b !!! dim)) (dval (a !!! dim)) = S754_nan).
  { destruct H as [-> | ->]; [apply fsub_nan_r | apply fsub_nan_l]. }
  rewrite E. cbn [fabs SFabs].
  destruct (mPeriodicity this !!! dim).
  - rewrite fsub_nan_r. unfold std_min.
    change (flt S754_nan S754_nan) with false. cbv iota. apply fadd_nan_r.
  - apply fadd_nan_r.
Qed.

Lemma dist_loop_nan_coordinate this a b n : forall from acc dim,
  (from <= dim < from + n)%nat ->
  dval (a !!! dim) = S754_nan \/ dval (b !!! dim) = S754_nan ->
  dist_loop this a b n from acc = S754_nan.
Proof.
  induction n as [|n IH]; intros from acc dim Hdim H; [lia|]. cbn [dist_loop].
  destruct (Nat.eq_dec dim from) as [->|Hne].
  - rewrite (dist_step_nan_coordinate this a b acc from H).
    apply dist_loop_nan_acc.
  - apply (IH _ _ dim); [lia | exact H].
Qed.

(** X4: a NaN coordinate of either point, on an axis of the domain, makes
    the squared distance a NaN; no later axis and no wrap hides it. *)
Theorem GetSquaredDistAtoB_nan SPACE_DIM this (a b : list double) dim :
  (dim < SPACE_DIM)%nat ->
  dval (a !!! dim) = S754_nan \/ dval (b !!! dim) = S754_nan ->
  GetSquaredDistAtoB SPACE_DIM this a b = S754_nan.
Proof.
  intros Hdim H. unfold GetSquaredDistAtoB.
  apply (dist_loop_nan_coordinate this a b SPACE_DIM 0 _ dim); [lia | exact H].
Qed.

Lemma GetSquaredDistAtoB_nan_witness :
  GetSquaredDistAtoB 2 unit_square [d_0_25; d_nan] [d_0_75; d_0_5] = S754_nan.
Proof.
  apply (GetSquaredDistAtoB_nan 2 unit_square _ _ 1%nat); [lia|].
  left. reflexivity.
Defined.

(** ** Cache key *)

Lemma append_cons c s t : String c s +:+ t = String c (s +:+ t).
Proof. reflexivity. Qed.

Lemma append_inv_head s t1 t2 : s +:+ t1 = s +:+ t2 -> t1 = t2.
Proof.
  induction s as [|c s IH]; intros H; [exact H|].
  rewrite !append_cons in H. injection H as H. apply IH, H.
Qed.

Lemma has_char_append c s t :
  has_char c (s +:+ t) = has_char c s || has_char c t.
Proof.
  induction s as [|a s IH]; [reflexivity|].
  rewrite append_cons. cbn [has_char]. rewrite IH. apply orb_assoc.
Qed.

(** Two strings free of [c], each followed by [c]: the first [c] is at the
    same place in both. *)
Lemma split_at_char c s1 s2 r1 r2 :
  has_char c s1 = false -> has_char c s2 = false ->
  s1 +:+ String c r1 = s2 +:+ String c r2 ->
  s1 = s2 /\ r1 = r2.
Proof.
  revert s2. induction s1 as [|a s1 IH]; intros [|b s2] H1 H2 H.
  - injection H as H. split; [reflexivity | exact H].
  - rewrite append_cons in H. change ("" +:+ String c r1) with (String c r1) in H.
    injection H as Hb _. cbn [has_char] in H2.
    rewrite <- Hb, Ascii.eqb_refl in H2. discriminate.
  - rewrite append_cons in H. change ("" +:+ String c r2) with (String c r2) in H.
    injection H as Ha _. cbn [has_char] in H1.
    rewrite Ha, Ascii.eqb_refl in H1. discriminate.
  - rewrite !append_cons in H. injection H as Hab H.
    cbn [has_char] in H1, H2.
    apply orb_false_iff in H1 as [_ H1]. apply orb_false_iff in H2 as [_ H2].
    destruct (IH s2 H1 H2 H) as [-> ->]. subst b. split; reflexivity.
Qed.

Lemma all_digits_no_char c s :
  is_digit c = false -> all_digits s = true -> has_char c s = false.
Proof.
  intros Hc. induction s as [|a s IH]; intros H; [reflexivity|].
  cbn [all_digits] in H. apply andb_true_iff in H as [Ha Hs].
  cbn [has_char]. rewrite (IH Hs), orb_false_r.
  destruct (Ascii.eqb_spec a c) as [->|]; [congruence | reflexivity].
Qed.

Lemma show_unsigned_no_char c u :
  is_digit c = false -> has_char c (show_unsigned u) = false.
Proof.
  intros Hc. apply all_digits_no_char; [exact Hc|].
  apply show_unsigned_plain.
Qed.

Lemma show_bool_no_char c b :
  is_digit c = false -> has_char c (show_bool b) = false.
Proof.
  intros Hc. apply all_digits_no_char; [exact Hc | destruct b; reflexivity].
Qed.

Lemma digit_is_digit' q : 0 <= q < 10 -> is_digit (digit q) = true.
Proof.
  intros H. rewrite <- (Z.mod_small q 10) by exact H. apply digit_is_digit.
Qed.

(** The characters a double is written with. *)
Lemma show_double_no_char c b :
  is_digit c = false ->
  c <> "-"%char -> c <> "."%char -> c <> "i"%char -> c <> "n"%char ->
  c <> "f"%char -> c <> "a"%char ->
  has_char c (show_double b) = false.
Proof.
  intros Hd Hm Hp Hi Hn Hf Ha.
  assert (Hne : forall a : ascii, a <> c -> Ascii.eqb a c = false)
    by (intros a Hac; apply Ascii.eqb_neq, Hac).
  unfold show_double, show_fixed3.
  rewrite has_char_append.
  apply orb_false_iff. split.
  - destruct (double_sign b); cbn [has_char]; [|reflexivity].
    rewrite Hne by congruence. reflexivity.
  - destruct (round3 (dval b)) as [q| |].
    + rewrite !has_char_append, show_unsigned_no_char by exact Hd.
      cbn [has_char orb].
      rewrite (Hne "."%char) by congruence.
      assert (Hdig : forall k, Ascii.eqb (digit (k mod 10)) c = false).
      { intros k. apply Hne. intros E.
        pose proof (digit_is_digit k) as Hk. rewrite E in Hk. congruence. }
      rewrite !Hdig. reflexivity.
    + cbn [has_char]. rewrite !Hne by congruence. reflexivity.
    + cbn [has_char]. rewrite !Hne by congruence. reflexivity.
Qed.

(** X5: generators of different dimensions never share a cache file: their
    names differ in the dimension tag. *)
Theorem GetFilenameFromParams_dimensions_apart N1 N2 this1 this2 name1 name2 :
  N1 <> N2 ->
  GetFilenameFromParams N1 this1 = Some name1 ->
  GetFilenameFromParams N2 this2 = Some name2 ->
  name1 <> name2.
Proof.
  intros Hne H1 H2 E. subst name2.
  assert (HN1 : (1 <= N1 <= 3)%nat).
  { destruct N1 as [|[|[|[|n]]]]; try lia; discriminate H1. }
  assert (HN2 : (1 <= N2 <= 3)%nat).
  { destruct N2 as [|[|[|[|n]]]]; try lia; discriminate H2. }
  rewrite (GetFilenameFromParams_fields N1 this1 HN1) in H1.
  rewrite (GetFilenameFromParams_fields N2 this2 HN2) in H2.
  rewrite <- H2 in H1. injection H1 as H. unfold cache_filename in H.
  apply append_inv_head in H.
  assert (N1 = 1 \/ N1 = 2 \/ N1 = 3)%nat as [->|[->| ->]] by lia;
  assert (N2 = 1 \/ N2 = 2 \/ N2 = 3)%nat as [->|[->| ->]] by lia;
    try congruence; unfold dimension_tag in H; rewrite ?append_cons in H;
    discriminate H.
Qed.

Lemma GetFilenameFromParams_dimensions_apart_witness :
  "CachedRandomFields/x_0.000_1.000_2_0_1_0.500.rfg" <>
  "CachedRandomFields/xy_0.000_0.000_1.000_1.000_3_3_0_0_4_0.500.rfg".
Proof.
  apply (GetFilenameFromParams_dimensions_apart 1 2 cached_axis unit_square);
    [lia | vm_compute; reflexivity | vm_compute; reflexivity].
Defined.

Lemma append_nil_l s : "" +:+ s = s.
Proof. reflexivity. Qed.

Lemma length_append s t :
  String.length (s +:+ t) = (String.length s + String.length t)%nat.
Proof.
  induction s as [|c s IH]; [reflexivity|].
  rewrite append_cons. cbn [String.length]. rewrite IH. reflexivity.
Qed.

Lemma append_inv_tail s1 s2 t : s1 +:+ t = s2 +:+ t -> s1 = s2.
Proof.
  revert s2. induction s1 as [|a s1 IH]; intros [|b s2] H.
  - reflexivity.
  - apply (f_equal String.length) in H.
    rewrite append_cons in H. cbn [String.length] in H.
    rewrite append_nil_l, length_append in H. lia.
  - apply (f_equal String.length) in H.
    rewrite append_cons in H. cbn [String.length] in H.
    rewrite append_nil_l, length_append in H. lia.
  - rewrite !append_cons in H. injection H as -> H.
    rewrite (IH s2 H). reflexivity.
Qed.

Lemma show_unsigned_inj u1 u2 :
  0 <= u1 -> 0 <= u2 -> show_unsigned u1 = show_unsigned u2 -> u1 = u2.
Proof.
  intros H1 H2 H. unfold show_unsigned in H.
  assert (Hnn : forall n, N.to_uint n <> Decimal.Nil).
  { intros [|p]; [discriminate | apply DecimalPos.Unsigned.to_uint_nonnil]. }
  apply (f_equal NilZero.uint_of_string) in H.
  rewrite !NilZero.usu in H by apply Hnn.
  injection H as H. apply DecimalN.Unsigned.to_uint_inj in H.
  apply Z2N.inj; assumption.
Qed.

Lemma digit_inj a b :
  0 <= a < 10 -> 0 <= b < 10 -> digit a = digit b -> a = b.
Proof.
  intros Ha Hb H. unfold digit in H.
  apply (f_equal nat_of_ascii) in H.
  rewrite !nat_ascii_embedding in H by lia. lia.
Qed.

Lemma round_half_even_nonneg num den :
  0 <= num -> 0 < den -> 0 <= round_half_even num den.
Proof.
  intros Hn Hd. unfold round_half_even.
  assert (0 <= num / den) by (apply Z.div_pos; lia).
  destruct (2 * (num mod den) ?= den); [destruct (Z.even _)| |]; lia.
Qed.

Lemma round3_ok x : fixed3_ok (round3 x).
Proof.
  destruct x as [s|s| |s m e]; simpl; try lia; trivial.
  unfold thousandths. destruct (0 <=? e) eqn:He.
  - apply Z.leb_le in He.
    assert (0 < 2 ^ e) by (apply Z.pow_pos_nonneg; lia). nia.
  - apply Z.leb_gt in He. apply round_half_even_nonneg; [lia|].
    apply Z.pow_pos_nonneg; lia.
Qed.

Lemma show_unsigned_head u :
  exists c s, show_unsigned u = String c s /\ is_digit c = true.
Proof.
  destruct (show_unsigned_plain u) as [Hne Hd].
  destruct (show_unsigned u) as [|c s]; [congruence|].
  cbn [all_digits] in Hd. apply andb_true_iff in Hd as [Hc _].
  exists c, s. split; [reflexivity | exact Hc].
Qed.

(** The magnitude part of a written double never has a minus sign. *)
Lemma show_fixed3_no_minus r : has_char "-" (show_fixed3 false r) = false.
Proof.
  unfold show_fixed3. rewrite append_nil_l.
  destruct r as [q| |]; [|reflexivity|reflexivity].
  rewrite !has_char_append, show_unsigned_no_char by reflexivity.
  cbn [has_char orb].
  assert (Hdig : forall k, Ascii.eqb (digit (k mod 10)) "-" = false).
  { intros k. apply Ascii.eqb_neq. intros E.
    pose proof (digit_is_digit k) as Hk. rewrite E in Hk. discriminate Hk. }
  rewrite !Hdig. reflexivity.
Qed.

Lemma show_fixed3_magnitude_inj r1 r2 :
  fixed3_ok r1 -> fixed3_ok r2 ->
  show_fixed3 false r1 = show_fixed3 false r2 -> r1 = r2.
Proof.
  unfold show_fixed3. rewrite !append_nil_l.
  destruct r1 as [q1| |], r2 as [q2| |]; cbn [fixed3_ok]; intros H1 H2 H;
    try reflexivity; try discriminate H.
  - rewrite !append_cons, !append_nil_l in H.
    apply split_at_char in H; try (apply show_unsigned_no_char; reflexivity).
    destruct H as [Hip Hfrac].
    apply show_unsigned_inj in Hip; try (apply Z.div_pos; lia).
    injection Hfrac as Ha Hb Hc.
    apply digit_inj in Ha; try (apply Z.mod_pos_bound; lia).
    apply digit_inj in Hb; try (apply Z.mod_pos_bound; lia).
    apply digit_inj in Hc; try (apply Z.mod_pos_bound; lia).
    f_equal. revert Hip Ha Hb Hc. clear.
    intros. Z.div_mod_to_equations. lia.
  - destruct (show_unsigned_head (q1 / 1000)) as (c & s & E & Hc).
    rewrite E, append_cons in H. injection H as -> _. discriminate Hc.
  - destruct (show_unsigned_head (q1 / 1000)) as (c & s & E & Hc).
    rewrite E, append_cons in H. injection H as -> _. discriminate Hc.
  - destruct (show_unsigned_head (q2 / 1000)) as (c & s & E & Hc).
    rewrite E, append_cons in H. injection H as <- _. discriminate Hc.
  - destruct (show_unsigned_head (q2 / 1000)) as (c & s & E & Hc).
    rewrite E, append_cons in H. injection H as <- _. discriminate Hc.
Qed.

Lemma show_fixed3_inj n1 r1 n2 r2 :
  fixed3_ok r1 -> fixed3_ok r2 ->
  show_fixed3 n1 r1 = show_fixed3 n2 r2 -> n1 = n2 /\ r1 = r2.
Proof.
  intros H1 H2 H.
  assert (Hsplit : forall n r,
            show_fixed3 n r = (if n then "-" else "") +:+ show_fixed3 false r)
    by (intros; reflexivity).
  rewrite (Hsplit n1), (Hsplit n2) in H.
  destruct n1, n2.
  - apply append_inv_head in H.
    split; [reflexivity | apply show_fixed3_magnitude_inj; assumption].
  - rewrite append_cons, !append_nil_l in H.
    pose proof (show_fixed3_no_minus r2) as Hm. rewrite <- H in Hm.
    discriminate Hm.
  - rewrite append_cons, !append_nil_l in H.
    pose proof (show_fixed3_no_minus r1) as Hm. rewrite H in Hm.
    discriminate Hm.
  - rewrite !append_nil_l in H.
    split; [reflexivity | apply show_fixed3_magnitude_inj; assumption].
Qed.

(** A written double gives back its three-decimal representation. *)
Lemma show_double_inj (b1 b2 : double) :
  show_double b1 = show_double b2 -> fixed3_repr b1 = fixed3_repr b2.
Proof.
  unfold show_double, fixed3_repr. intros H.
  apply show_fixed3_inj in H; try apply round3_ok.
  destruct H as [-> ->]. reflexivity.
Qed.

Lemma show_double_no_underscore b : has_char "_" (show_double b) = false.
Proof. apply show_double_no_char; (reflexivity || discriminate). Qed.

Lemma show_unsigned_no_underscore u : has_char "_" (show_unsigned u) = false.
Proof. apply show_unsigned_no_char. reflexivity. Qed.

Lemma show_bool_no_underscore b : has_char "_" (show_bool b) = false.
Proof. apply show_bool_no_char. reflexivity. Qed.

Lemma show_bool_inj b1 b2 : show_bool b1 = show_bool b2 -> b1 = b2.
Proof. destruct b1, b2; (reflexivity || discriminate). Qed.

(** Takes the first field off both sides of an equation between two lists
    of fields separated by underscores. *)
Ltac peel_field H E :=
  apply split_at_char in H;
  [ destruct H as [E H]
  | first [ apply show_double_no_underscore | apply show_unsigned_no_underscore
          | apply show_bool_no_underscore ]
  | first [ apply show_double_no_underscore | apply show_unsigned_no_underscore
          | apply show_bool_no_underscore ] ].

Ltac list_of_length l :=
  repeat (let x := fresh "x" in destruct l as [|x l]; cbn [length] in *; try lia).

(** X6: the cache key gives back the parameters up to the third decimal:
    two well-typed parameter sets with the same file name have the same grid
    sizes, periodicity flags and number of eigenvalues, and doubles that are
    written alike, sign included. *)
Theorem GetFilenameFromParams_key_determines_params N g1 g2 :
  (1 <= N <= 3)%nat ->
  params_well_typed N g1 ->
  params_well_typed N g2 ->
  GetFilenameFromParams N g1 = GetFilenameFromParams N g2 ->
  same_params_at_3_decimals g1 g2.
Proof.
  intros HN (Llo1 & Lup1 & Lgr1 & Lpe1 & Rgr1 & Rne1)
            (Llo2 & Lup2 & Lgr2 & Lpe2 & Rgr2 & Rne2) H.
  destruct g1 as [lo1 up1 gr1 pe1 ne1 ls1 ev1 vc1].
  destruct g2 as [lo2 up2 gr2 pe2 ne2 ls2 ev2 vc2].
  unfold same_params_at_3_decimals.
  cbn [mLowerCorner mUpperCorner mNumGridPts mPeriodicity mNumEigenvals
       mLengthScale] in *.
  unfold GetFilenameFromParams in H.
  cbn [mLowerCorner mUpperCorner mNumGridPts mPeriodicity mNumEigenvals
       mLengthScale] in H.
  destruct Rne1 as [Rne1 _], Rne2 as [Rne2 _].
  assert (N = 1 \/ N = 2 \/ N = 3)%nat as [->|[->| ->]] by lia.
  all: list_of_length lo1; list_of_length lo2; list_of_length up1;
    list_of_length up2; list_of_length gr1; list_of_length gr2;
    list_of_length pe1; list_of_length pe2.
  all: cbn [lookup_total list_lookup_total] in H.
  all: injection H as H; rewrite !append_cons, !append_nil_l in H.
  - peel_field H E1. peel_field H E2. peel_field H E3. peel_field H E4.
    peel_field H E5. apply append_inv_tail in H.
    apply show_double_inj in E1, E2, H.
    apply show_bool_inj in E4.
    apply Forall_cons_1 in Rgr1 as [[R1 _] _]. apply Forall_cons_1 in Rgr2 as [[R2 _] _].
    apply show_unsigned_inj in E3, E5; try assumption.
    subst. repeat split; try assumption; repeat constructor; assumption.
  - peel_field H E1. peel_field H E2. peel_field H E3. peel_field H E4.
    peel_field H E5. peel_field H E6. peel_field H E7. peel_field H E8.
    peel_field H E9. apply append_inv_tail in H.
    apply show_double_inj in E1, E2, E3, E4, H.
    apply show_bool_inj in E7, E8.
    apply Forall_cons_1 in Rgr1 as [[R1 _] Rgr1].
    apply Forall_cons_1 in Rgr1 as [[R1' _] _].
    apply Forall_cons_1 in Rgr2 as [[R2 _] Rgr2].
    apply Forall_cons_1 in Rgr2 as [[R2' _] _].
    apply show_unsigned_inj in E5, E6, E9; try assumption.
    subst. repeat split; try assumption; repeat constructor; assumption.
  - peel_field H E1. peel_field H E2. peel_field H E3. peel_field H E4.
    peel_field H E5. peel_field H E6. peel_field H E7. peel_field H E8.
    peel_field H E9. peel_field H E10. peel_field H E11. peel_field H E12.
    peel_field H E13. apply append_inv_tail in H.
    apply show_double_inj in E1, E2, E3, E4, E5, E6, H.
    apply show_bool_inj in E10, E11, E12.
    apply Forall_cons_1 in Rgr1 as [[R1 _] Rgr1].
    apply Forall_cons_1 in Rgr1 as [[R1' _] Rgr1].
    apply Forall_cons_1 in Rgr1 as [[R1'' _] _].
    apply Forall_cons_1 in Rgr2 as [[R2 _] Rgr2].
    apply Forall_cons_1 in Rgr2 as [[R2' _] Rgr2].
    apply Forall_cons_1 in Rgr2 as [[R2'' _] _].
    apply show_unsigned_inj in E7, E8, E9, E13; try assumption.
    subst. repeat split; try assumption; repeat constructor; assumption.
Qed.

Lemma GetFilenameFromParams_key_determines_params_witness :
  same_params_at_3_decimals unit_square unit_square_0_5004.
Proof.
  apply (GetFilenameFromParams_key_determines_params 2).
  - lia.
  - unfold params_well_typed, unit_square, initial_object; cbn.
    repeat split; try reflexivity;
      repeat (apply List.Forall_cons; [in_range_now|]);
      try apply List.Forall_nil; in_range_now.
  - unfold params_well_typed, unit_square_0_5004, initial_object; cbn.
    repeat split; try reflexivity;
      repeat (apply List.Forall_cons; [in_range_now|]);
      try apply List.Forall_nil; in_range_now.
  - vm_compute. reflexivity.
Defined.

(** ** Cache codec and construction *)

Lemma load_events_input N path ne tot : Forall input_event (load_events N path ne tot).
Proof. unfold load_events. repeat constructor. Qed.

(** A call of [LoadFromCache] leaves the files alone and uses an input
    stream only. *)
Lemma LoadFromCache_reads_only N this path w :
  files (snd (LoadFromCache N this path w)) = files w /\
  exists events,
    trace (snd (LoadFromCache N this path w)) = trace w ++ events /\
    Forall input_event events.
Proof.
  destruct (can_open_in w path) as [content|] eqn:Hopen.
  - destruct (LoadFromCache_opened N this path w content Hopen)
      as (evals & evecs & w' & Hrun & Hfiles & _ & _ & _ & Htrace & _).
    cbv zeta in Hrun, Htrace. rewrite Hrun. cbn [snd].
    split; [exact Hfiles|]. eexists. split; [exact Htrace|].
    apply load_events_input.
  - rewrite (LoadFromCache_not_opened N this path w Hopen). cbn [snd].
    split; [reflexivity|]. exists [EvOpenIn path false].
    split; [reflexivity | repeat constructor].
Qed.

(** X7: neither [LoadFromCache] nor the constructor ever writes: however the
    call ends (an object, an exception), on whatever files, the files are as
    before and the only stream operations made are those of an input
    stream. *)
Theorem constructor_never_writes N this path lowerCorner upperCorner numGridPts
    periodicity numEigenvals lengthScale w :
  (files (snd (LoadFromCache N this path w)) = files w /\
   exists events,
     trace (snd (LoadFromCache N this path w)) = trace w ++ events /\
     Forall input_event events)
  /\
  (files (snd (constructor N lowerCorner upperCorner numGridPts periodicity
                 numEigenvals lengthScale w)) = files w /\
   exists events,
     trace (snd (constructor N lowerCorner upperCorner numGridPts periodicity
                   numEigenvals lengthScale w)) = trace w ++ events /\
     Forall input_event events).
Proof.
  split; [apply LoadFromCache_reads_only|].
  set (this0 := initial_object lowerCorner upperCorner numGridPts periodicity
                  numEigenvals lengthScale).
  destruct (GetFilenameFromParams N this0) as [name|] eqn:Hname.
  - destruct (files w !! (test_output w +:+ name)) as [content|] eqn:Hfile.
    + rewrite (constructor_warm_run _ _ _ _ _ _ _ _ _ _ Hname Hfile).
      apply LoadFromCache_reads_only.
    + rewrite (constructor_cold_run _ _ _ _ _ _ _ _ _ Hname Hfile). cbn [snd].
      split; [reflexivity|]. exists []. split; [symmetry; apply app_nil_r | constructor].
  - unfold constructor. fold this0. rewrite Hname. cbn [snd terminate].
    split; [reflexivity|]. exists []. split; [symmetry; apply app_nil_r | constructor].
Qed.

(** X8: a successful [SaveToCache] replaces whatever the file of the key
    held by the header followed by the eigenvalues and the eigenvectors, of
    [sizeof(header) + 8 * (number of eigenvalues + number of matrix entries)]
    bytes in all, and leaves every other file as it was. *)
Theorem SaveToCache_replaces_file N this w :
  (1 <= N <= 3)%nat ->
  well_typed N this ->
  writable w (test_output w +:+ cache_filename N this) = true ->
  exists w' content,
    SaveToCache N this w = (Ok tt, w') /\
    files w' !! (test_output w +:+ cache_filename N this) = Some content /\
    content = fill_header N this (junk w (sizeof_header N)) ++
              encode_array 8 (mEigenvals this) ++
              encode_array 8 (m_data (mEigenvecs this)) /\
    length content =
      (sizeof_header N + 8 * (length (mEigenvals this) +
                              length (m_data (mEigenvecs this))))%nat /\
    forall other, other <> test_output w +:+ cache_filename N this ->
      files w' !! other = files w !! other.
Proof.
  intros HN Hty Hwr.
  pose proof (GetFilenameFromParams_fields N this HN) as Hname.
  destruct (SaveToCache_opened N this w _ Hname Hwr) as (w' & Hsave & Hfiles & _).
  cbv zeta in Hsave, Hfiles.
  destruct (fill_header_fields N this (junk w (sizeof_header N)) HN
              (length_junk _ _) Hty) as (Lf & _).
  exists w', (record_bytes N this (junk w (sizeof_header N))).
  split; [exact Hsave|].
  split; [rewrite Hfiles; apply lookup_insert_eq|].
  split; [reflexivity|].
  split.
  - unfold record_bytes. rewrite !length_app, !length_encode_array, Lf. zlia.
  - intros other Hother. rewrite Hfiles. apply lookup_insert_ne. congruence.
Qed.

Lemma SaveToCache_replaces_file_witness :
  exists w' content,
    SaveToCache 1 cached_axis warm_world = (Ok tt, w') /\
    files w' !! (test_output warm_world +:+ cache_filename 1 cached_axis) = Some content /\
    length content = 64%nat.
Proof.
  destruct (SaveToCache_replaces_file 1 cached_axis warm_world)
    as (w' & content & Hsave & Hfile & _ & Hlen & _).
  - lia.
  - exact cached_axis_well_typed.
  - reflexivity.
  - exists w', content. split; [exact Hsave|]. split; [exact Hfile | exact Hlen].
Defined.

(** X9: once a well-typed generator with eigen data of the sizes of its
    parameters is saved, constructing with any parameters that have the same
    key gives that generator, eigen data included. *)
Theorem SaveToCache_then_constructor N this w lowerCorner upperCorner numGridPts
    periodicity numEigenvals lengthScale :
  (1 <= N <= 3)%nat ->
  well_typed N this ->
  sized_by_params this ->
  writable w (test_output w +:+ cache_filename N this) = true ->
  readable w (test_output w +:+ cache_filename N this) = true ->
  GetFilenameFromParams N
    (initial_object lowerCorner upperCorner numGridPts periodicity
       numEigenvals lengthScale) = GetFilenameFromParams N this ->
  exists w1 w2,
    SaveToCache N this w = (Ok tt, w1) /\
    constructor N lowerCorner upperCorner numGridPts periodicity
      numEigenvals lengthScale w1 = (Ok this, w2).
Proof.
  intros HN Hty Hsz Hwr Hrd Hkey.
  pose proof (GetFilenameFromParams_fields N this HN) as Hname.
  rewrite Hname in Hkey.
  destruct (SaveToCache_opened N this w _ Hname Hwr)
    as (w1 & Hsave & Hfiles & Hread & _ & Hout & _).
  cbv zeta in Hsave, Hfiles.
  assert (Hfile : files w1 !! (test_output w1 +:+ cache_filename N this) =
                  Some (record_bytes N this (junk w (sizeof_header N)))).
  { rewrite Hout, Hfiles. apply lookup_insert_eq. }
  destruct (LoadFromCache_record N this
              (initial_object lowerCorner upperCorner numGridPts periodicity
                 numEigenvals lengthScale)
              (test_output w1 +:+ cache_filename N this) w1
              (junk w (sizeof_header N)) HN Hty Hsz (length_junk _ _))
    as (w2 & Hload & _).
  { unfold can_open_in. rewrite Hread, Hout, Hrd. rewrite <- Hout. exact Hfile. }
  exists w1, w2. split; [exact Hsave|].
  rewrite (constructor_warm_run _ _ _ _ _ _ _ _ _ _ Hkey Hfile). exact Hload.
Qed.

Lemma SaveToCache_then_constructor_witness :
  exists w1 w2,
    SaveToCache 1 cached_axis empty_world = (Ok tt, w1) /\
    constructor 1 [0] [d_1_0] [2] [false] 1 d_0_5 w1 = (Ok cached_axis, w2).
Proof.
  apply (SaveToCache_then_constructor 1 cached_axis empty_world).
  - lia.
  - exact cached_axis_well_typed.
  - exact cached_axis_sized.
  - reflexivity.
  - reflexivity.
  - vm_compute. reflexivity.
Defined.

(** ** What [LoadFromCache] leaves *)

Lemma le_combine_in_range sz (bs : list byte) :
  (length bs <= sz)%nat -> in_range sz (le_combine bs).
Proof.
  intros H. unfold in_range.
  pose proof (le_combine_bound bs) as [H0 H1]. split; [exact H0|].
  eapply Z.lt_le_trans; [exact H1|].
  apply Z.pow_le_mono_r; lia.
Qed.

Lemma decode_array_in_range sz n : forall mem,
  Forall (in_range sz) (decode_array sz n mem).
Proof.
  induction n as [|n IH]; intros mem; cbn [decode_array]; constructor.
  - apply le_combine_in_range. rewrite length_take. lia.
  - apply IH.
Qed.

Lemma load_length off len (mem : list byte) : (length (load off len mem) <= len)%nat.
Proof. unfold load. rewrite length_take. lia. Qed.

(** Whatever the bytes, the object they denote is well typed and its eigen
    containers have the sizes of its parameters. *)
Lemma object_of_record_invariant N header eigenvals eigenvecs :
  let g := object_of_record N header eigenvals eigenvecs in
  well_typed N g /\
  Z.of_nat (length (mEigenvals g)) = mNumEigenvals g /\
  m_rows (mEigenvecs g) = total_gridpts_of (mNumGridPts g) /\
  m_cols (mEigenvecs g) = mNumEigenvals g /\
  Z.of_nat (length (m_data (mEigenvecs g))) =
    m_rows (mEigenvecs g) * m_cols (mEigenvecs g).
Proof.
  cbv zeta. unfold object_of_record, well_typed.
  cbn [mLowerCorner mUpperCorner mNumGridPts mPeriodicity mNumEigenvals mLengthScale
       mEigenvals mEigenvecs m_rows m_cols m_data].
  pose proof (header_mNumEigenvals_nonneg N header) as Hne.
  pose proof (total_gridpts_of_range (header_mNumGridPts N header)) as Htot.
  unfold header_mLowerCorner, header_mUpperCorner, header_mNumGridPts,
    header_mPeriodicity in *.
  rewrite ?length_map, !length_decode_array.
  repeat match goal with |- _ /\ _ => split end;
    try reflexivity; try apply decode_array_in_range.
  - apply le_combine_in_range, load_length.
  - apply le_combine_in_range, load_length.
  - lia.
  - nia.
Qed.

Lemma LoadFromCache_returns N this path w g w' :
  LoadFromCache N this path w = (Ok g, w') ->
  exists content header eigenvals eigenvecs,
    can_open_in w path = Some content /\
    header = read_over (junk w (sizeof_header N)) (sizeof_header N) content /\
    g = object_of_record N header eigenvals eigenvecs /\
    files w' = files w /\ readable w' = readable w /\ writable w' = writable w /\
    test_output w' = test_output w /\
    trace w' = trace w ++
      load_events N path (header_mNumEigenvals N header)
        (total_gridpts_of (header_mNumGridPts N header)).
Proof.
  intros Hrun.
  destruct (can_open_in w path) as [content|] eqn:Hopen.
  - destruct (LoadFromCache_opened N this path w content Hopen)
      as (evals & evecs & w'' & Hok & Hf & Hr & Hw & Ht & Htr & _).
    cbv zeta in Hok, Htr. rewrite Hok in Hrun. injection Hrun as <- <-.
    exists content, (read_over (junk w (sizeof_header N)) (sizeof_header N) content),
      evals, evecs.
    repeat split; assumption || reflexivity.
  - rewrite (LoadFromCache_not_opened N this path w Hopen) in Hrun. discriminate.
Qed.

(** X10: whatever the file holds, cut short or not a cache record at all,
    an object that [LoadFromCache] returns is well typed (arrays of
    [SPACE_DIM] elements, numbers within their types) and has exactly
    [numEigenvals] eigenvalues and a matrix of [totalGridPoints] rows,
    [numEigenvals] columns and as many entries as rows times columns. *)
Theorem LoadFromCache_establishes_sizes N this path w g w' :
  LoadFromCache N this path w = (Ok g, w') ->
  well_typed N g /\
  Z.of_nat (length (mEigenvals g)) = mNumEigenvals g /\
  m_rows (mEigenvecs g) = fold_left umul (mNumGridPts g) 1 /\
  m_cols (mEigenvecs g) = mNumEigenvals g /\
  Z.of_nat (length (m_data (mEigenvecs g))) =
    m_rows (mEigenvecs g) * m_cols (mEigenvecs g).
Proof.
  intros Hrun.
  destruct (LoadFromCache_returns N this path w g w' Hrun)
    as (content & header & evals & evecs & _ & _ & -> & _).
  apply object_of_record_invariant.
Qed.

Lemma LoadFromCache_establishes_sizes_witness :
  exists g w',
    LoadFromCache 2 unit_square
      "/testoutput/CachedRandomFields/xy_0.000_0.000_1.000_1.000_3_3_0_0_4_0.500.rfg"
      (snd (SaveToCache 2 unit_square empty_world)) = (Ok g, w') /\
    well_typed 2 g /\
    Z.of_nat (length (mEigenvals g)) = 4 /\
    Z.of_nat (length (m_data (mEigenvecs g))) = 36.
Proof.
  eexists _, _. split; [vm_compute; reflexivity|].
  match goal with |- well_typed 2 ?g /\ _ =>
    destruct (LoadFromCache_establishes_sizes 2 unit_square
      "/testoutput/CachedRandomFields/xy_0.000_0.000_1.000_1.000_3_3_0_0_4_0.500.rfg"
      (snd (SaveToCache 2 unit_square empty_world)) g
      (snd (LoadFromCache 2 unit_square
        "/testoutput/CachedRandomFields/xy_0.000_0.000_1.000_1.000_3_3_0_0_4_0.500.rfg"
        (snd (SaveToCache 2 unit_square empty_world)))))
      as (Hty & _) end.
  - vm_compute. reflexivity.
  - split; [exact Hty|]. split; reflexivity.
Defined.

(** X11: an object that [LoadFromCache] returned can be saved and loaded
    again unchanged, whatever file it came from, as long as its entry count
    [totalGridPoints * numEigenvals] fits an unsigned and the file of its
    own key can be written and read. *)
Theorem LoadFromCache_result_round_trips N this other path w g w1 :
  (1 <= N <= 3)%nat ->
  LoadFromCache N this path w = (Ok g, w1) ->
  total_gridpts_of (mNumGridPts g) * mNumEigenvals g < 2 ^ 32 ->
  writable w1 (test_output w1 +:+ cache_filename N g) = true ->
  readable w1 (test_output w1 +:+ cache_filename N g) = true ->
  exists w2 w3,
    SaveToCache N g w1 = (Ok tt, w2) /\
    LoadFromCache N other (test_output w1 +:+ cache_filename N g) w2 = (Ok g, w3).
Proof.
  intros HN Hrun Hfit Hwr Hrd.
  destruct (LoadFromCache_returns N this path w g w1 Hrun)
    as (content & header & evals & evecs & _ & _ & Hg & _).
  pose proof (object_of_record_invariant N header evals evecs) as Hinv.
  cbv zeta in Hinv. rewrite <- Hg in Hinv. clear Hg Hrun.
  destruct Hinv as (Hty & Sev & Srow & Scol & Sdat).
  assert (Hsz : sized_by_params g).
  { unfold sized_by_params. repeat match goal with |- _ /\ _ => split end;
      try assumption.
    rewrite Sdat, Srow, Scol. symmetry. apply umul_no_wrap.
    split; [|exact Hfit].
    pose proof (total_gridpts_of_range (mNumGridPts g)) as Htot.
    destruct Hty as (_ & _ & _ & _ & _ & _ & _ & Rne & _).
    unfold in_range in Rne. nia. }
  pose proof (GetFilenameFromParams_fields N g HN) as Hname.
  destruct (SaveToCache_opened N g w1 _ Hname Hwr)
    as (w2 & Hsave & Hfiles & Hread & _).
  cbv zeta in Hsave, Hfiles.
  destruct (LoadFromCache_record N g other
              (test_output w1 +:+ cache_filename N g) w2
              (junk w1 (sizeof_header N)) HN Hty Hsz (length_junk _ _))
    as (w3 & Hload & _).
  { unfold can_open_in. rewrite Hread, Hrd, Hfiles. apply lookup_insert_eq. }
  exists w2, w3. split; assumption.
Qed.

Lemma LoadFromCache_result_round_trips_witness :
  exists w2 w3,
    SaveToCache 1 cached_axis
      (snd (LoadFromCache 1 unit_square cached_axis_path warm_world)) = (Ok tt, w2) /\
    LoadFromCache 1 unit_square
      (test_output (snd (LoadFromCache 1 unit_square cached_axis_path warm_world))
         +:+ cache_filename 1 cached_axis) w2 = (Ok cached_axis, w3).
Proof.
  apply (LoadFromCache_result_round_trips 1 unit_square unit_square
           cached_axis_path warm_world cached_axis
           (snd (LoadFromCache 1 unit_square cached_axis_path warm_world))).
  - lia.
  - vm_compute. reflexivity.
  - vm_compute. reflexivity.
  - reflexivity.
  - reflexivity.
Defined.

Lemma read_over_short dst count src :
  (length src <= count)%nat ->
  read_over dst count src = src ++ drop (length src) dst.
Proof.
  intros H. unfold read_over; cbv zeta. rewrite take_ge by lia. reflexivity.
Qed.

(** X12: a cache file that ends inside the header is not noticed:
    [LoadFromCache] raises nothing and returns an object whose six
    parameters are decoded from the bytes of the file followed by what the
    header object's storage held where the file ran out. *)
Theorem LoadFromCache_short_file N this path w content :
  can_open_in w path = Some content ->
  (length content <= sizeof_header N)%nat ->
  exists g w',
    LoadFromCache N this path w = (Ok g, w') /\
    let header := content ++ drop (length content) (junk w (sizeof_header N)) in
    mLowerCorner g = header_mLowerCorner N header /\
    mUpperCorner g = header_mUpperCorner N header /\
    mNumGridPts g = header_mNumGridPts N header /\
    mPeriodicity g = header_mPeriodicity N header /\
    mNumEigenvals g = header_mNumEigenvals N header /\
    mLengthScale g = header_mLengthScale N header.
Proof.
  intros Hopen Hshort.
  destruct (LoadFromCache_opened N this path w content Hopen)
    as (evals & evecs & w' & Hrun & _).
  cbv zeta in Hrun. rewrite (read_over_short _ _ _ Hshort) in Hrun.
  eexists _, w'. split; [exact Hrun|].
  cbv zeta. unfold object_of_record.
  cbn [mLowerCorner mUpperCorner mNumGridPts mPeriodicity mNumEigenvals mLengthScale].
  repeat split.
Qed.

Lemma LoadFromCache_short_file_witness :
  exists g w',
    LoadFromCache 1 unit_square cached_axis_path truncated_world = (Ok g, w') /\
    mUpperCorner g = [d_1_0] /\ mNumGridPts g = [2] /\
    mNumEigenvals g = 0 /\ mLengthScale g = 0.
Proof.
  destruct (LoadFromCache_short_file 1 unit_square cached_axis_path truncated_world
              (take 20 (record_bytes 1 cached_axis (repeat Byte.x00 40))))
    as (g & w' & Hrun & _ & Hup & Hgr & _ & Hne & Hls).
  - reflexivity.
  - vm_compute. lia.
  - exists g, w'. split; [exact Hrun|].
    rewrite Hup, Hgr, Hne, Hls. vm_compute. repeat split.
Defined.
